(** * Food-Nutrition-Analyzer: the nutrition lookup of [app.py]

    A shallow embedding of [food-nutrition-backend/app.py]: the start-up load
    of the local nutrition database, [get_nutrition_data_from_api] and the
    request handler [analyze], followed by the properties of the
    cache / fetch / persist protocol.

    Python values are embedded as JSON values ([json]); [None] is [JNull]
    and a [dict] with string keys is a [gmap string json].  Exceptions are
    explicit ([res]); the module globals ([nutrition_db], the file behind
    [DB_FILE_PATH]) live in a [world] that is threaded through a small state
    and exception monad [M].  What the program cannot decide by itself (the
    classifier, the HTTP exchange with Edamam, the outcome of a file write)
    is supplied from outside as an oracle. *)

From stdpp Require Import base strings gmap list.
From Stdlib Require Import ZArith QArith.

#[local] Set Warnings "-register-all".
#[local] Open Scope Z_scope.

(** ** Python values *)

(** A Python [float].  A finite float is represented by its exact rational
    value; [nan] and the infinities are kept apart because [int()] raises
    on them. *)
Inductive pyfloat :=
  | FFin (q : Q)
  | FNan
  | FInf (negative : bool).

Inductive json :=
  | JNull
  | JBool (b : bool)
  | JInt (z : Z)
  | JFloat (f : pyfloat)
  | JStr (s : string)
  | JArr (l : list json)
  | JObj (m : gmap string json).

(** What [round(x, 1)] returns: an [int] stays an [int]. *)
Inductive pynum :=
  | NInt (z : Z)
  | NFloat (f : pyfloat).

Definition num_to_json (n : pynum) : json :=
  match n with
  | NInt z => JInt z
  | NFloat f => JFloat f
  end.

Inductive exn :=
  | KeyError
  | IndexError
  | TypeError
  | AttributeError
  | ValueError
  | OverflowError
  | ClassifierError.

Inductive res (A : Type) :=
  | Ret (a : A)
  | Raise (e : exn).
Arguments Ret {A} a.
Arguments Raise {A} e.

#[export] Instance res_ret : MRet res := @Ret.
#[export] Instance res_bind : MBind res := fun A B f m =>
  match m with
  | Ret a => f a
  | Raise e => Raise e
  end.

(** [bool(v)] *)
Definition truthy (v : json) : bool :=
  match v with
  | JNull => false
  | JBool b => b
  | JInt z => negb (z =? 0)
  | JFloat (FFin q) => negb (Qnum q =? 0)
  | JFloat _ => true
  | JStr s => negb (String.eqb s "")
  | JArr l => match l with [] => false | _ => true end
  | JObj m => negb (Nat.eqb (size m) 0)
  end.

(** [v[k]] for a string [k] *)
Definition getitem (v : json) (k : string) : res json :=
  match v with
  | JObj m => match m !! k with Some x => Ret x | None => Raise KeyError end
  | _ => Raise TypeError
  end.

(** [v[0]]; the keys of a JSON object are strings, so [0] is never one. *)
Definition getitem0 (v : json) : res json :=
  match v with
  | JArr (x :: _) => Ret x
  | JArr [] => Raise IndexError
  | JStr (String c _) => Ret (JStr (String c ""))
  | JStr EmptyString => Raise IndexError
  | JObj _ => Raise KeyError
  | _ => Raise TypeError
  end.

(** [v.get(k, d)] *)
Definition dict_get (v : json) (k : string) (d : json) : res json :=
  match v with
  | JObj m => Ret (default d (m !! k))
  | _ => Raise AttributeError
  end.

Definition is_substring (k s : string) : bool :=
  match String.index 0 k s with
  | Some _ => true
  | None => false
  end.

Definition is_str (k : string) (v : json) : bool :=
  match v with
  | JStr s => String.eqb s k
  | _ => false
  end.

(** [k in v] for a string [k] *)
Definition contains (k : string) (v : json) : res bool :=
  match v with
  | JObj m => Ret (bool_decide (is_Some (m !! k)))
  | JArr l => Ret (existsb (is_str k) l)
  | JStr s => Ret (is_substring k s)
  | _ => Raise TypeError
  end.

(** [v[k] = x] for a string [k] *)
Definition setitem (v : json) (k : string) (x : json) : res json :=
  match v with
  | JObj m => Ret (JObj (<[k := x]> m))
  | _ => Raise TypeError
  end.

(** [len(v)] *)
Definition py_len (v : json) : res nat :=
  match v with
  | JObj m => Ret (size m)
  | JArr l => Ret (length l)
  | JStr s => Ret (String.length s)
  | _ => Raise TypeError
  end.

(** ** Numbers: [round(x, 1)] and [int(x)] *)

(** Nearest integer, ties to the even one. *)
Definition round_half_even (q : Q) : Z :=
  let n := Qnum q in
  let d := Zpos (Qden q) in
  let fl := n / d in
  match (2 * (n mod d)) ?= d with
  | Lt => fl
  | Gt => fl + 1
  | Eq => if Z.even fl then fl else fl + 1
  end.

(** The number of tenths [round(x, 1)] keeps of a finite float: the exact
    value is rounded to one decimal, ties to even.  The float that [round]
    returns is the one nearest to that decimal; it is represented here by
    the decimal itself.  Both have the same integer part (the argument, a
    float itself, lies nearer to the decimal than any integer the decimal
    does not reach), so [int] of the result is [trunc] of the decimal. *)
Definition tenths (q : Q) : Z := round_half_even (q * (10 # 1))%Q.

Definition round1 (f : pyfloat) : pyfloat :=
  match f with
  | FFin q => FFin (tenths q # 10)
  | _ => f
  end.

(** [round(v, 1)] *)
Definition py_round1 (v : json) : res pynum :=
  match v with
  | JInt z => Ret (NInt z)
  | JBool b => Ret (NInt (if b then 1 else 0))
  | JFloat f => Ret (NFloat (round1 f))
  | _ => Raise TypeError
  end.

(** Truncation toward zero. *)
Definition trunc (q : Q) : Z := Z.quot (Qnum q) (Zpos (Qden q)).

(** [int(n)] *)
Definition py_int (n : pynum) : res Z :=
  match n with
  | NInt z => Ret z
  | NFloat (FFin q) => Ret (trunc q)
  | NFloat FNan => Raise ValueError
  | NFloat (FInf _) => Raise OverflowError
  end.

(** ** The outside world *)

(** One HTTP exchange: [requests.post(url, json=payload)], then
    [raise_for_status()] and [response.json()].  Every failure of the three
    (no connection, a status that is not 2xx, a body that is not JSON) is a
    [requests.exceptions.RequestException]. *)
Record http_request := { url : string; payload : json }.

Inductive http_outcome :=
  | RequestException
  | HttpJson (data : json).

(** [open(DB_FILE_PATH, 'w')] followed by [json.dump]: both succeed, or
    [open] raises an [IOError] (the file is left as it was), or [json.dump]
    raises one after [open] truncated the file. *)
Inductive write_outcome :=
  | WriteOk
  | OpenFails
  | DumpFails.

(** The file behind [DB_FILE_PATH], by what [open(.., 'r')] and [json.load]
    do on it: [FileNotFoundError]; a text that is no JSON document (empty,
    cut short, garbled), which is [json.JSONDecodeError]; any other
    exception ([PermissionError], [UnicodeDecodeError], ...); or the JSON
    value it holds. *)
Inductive db_file_state :=
  | NotFound
  | NotJson
  | Unreadable
  | Snapshot (v : json).

(** The credentials, [os.getenv] of [EDAMAM_APP_ID] and [EDAMAM_APP_KEY]:
    [None] when the variable is unset. *)
Record config := { APP_ID : option string; APP_KEY : option string }.

(** What the outside does during one request. *)
Record oracle := {
  net : http_request → http_outcome;
  disk : write_outcome
}.

Inductive event :=
  | EvProvider (food_name : string)
  | EvPost (r : http_request).

(** The module globals, and the calls made so far. *)
Record world := {
  nutrition_db : json;
  db_file : db_file_state;
  trace : list event
}.

(** ** State and exceptions *)

Definition M (A : Type) : Type := world → res A * world.

#[export] Instance M_ret : MRet M := fun A a w => (Ret a, w).
#[export] Instance M_bind : MBind M := fun A B f m w =>
  match m w with
  | (Ret a, w') => f a w'
  | (Raise e, w') => (Raise e, w')
  end.

Definition lift {A} (r : res A) : M A := fun w => (r, w).

Definition log (ev : event) : M unit := fun w =>
  (Ret (), {| nutrition_db := nutrition_db w; db_file := db_file w;
              trace := trace w ++ [ev] |}).

Definition read_db : M json := fun w => (Ret (nutrition_db w), w).

Definition write_db (v : json) : M unit := fun w =>
  (Ret (), {| nutrition_db := v; db_file := db_file w; trace := trace w |}).

(** [try: m except Exception: h] *)
Definition try_except {A} (m : M A) (h : exn → M A) : M A := fun w =>
  match m w with
  | (Raise e, w') => h e w'
  | r => r
  end.

(** ** Strings *)

(** [str.lower] on the ASCII letters, which is what the class names are
    made of. *)
Definition lower_ascii (c : Ascii.ascii) : Ascii.ascii :=
  let n := Ascii.nat_of_ascii c in
  if ((65 <=? n) && (n <=? 90))%nat then Ascii.ascii_of_nat (n + 32) else c.

Fixpoint lower (s : string) : string :=
  match s with
  | EmptyString => EmptyString
  | String c s' => String (lower_ascii c) (lower s')
  end.

(** [f"{x}"] of a credential *)
Definition fmt (x : option string) : string :=
  match x with
  | Some s => s
  | None => "None"
  end.

(** ** [get_nutrition_data_from_api] *)

(** The nutrient fields after ["calories"], each with the Edamam key it is
    read from, in the order of the dict literal. *)
Definition nutrient_fields : list (string * string) :=
  [ ("protein", "PROCNT"); ("fat", "FAT"); ("carbs", "CHOCDF");
    ("fiber", "FIBTG"); ("sugar", "SUGAR"); ("sodium", "NA");
    ("cholesterol", "CHOLE"); ("calcium", "CA"); ("iron", "FE");
    ("magnesium", "MG"); ("potassium", "K"); ("zinc", "ZN");
    ("phosphorus", "P"); ("vitaminA", "VITA_RAE"); ("vitaminC", "VITC");
    ("thiaminB1", "THIA"); ("riboflavinB2", "RIBF"); ("niacinB3", "NIA");
    ("vitaminB6", "VITB6A"); ("vitaminB12", "VITB12"); ("vitaminD", "VITD");
    ("vitaminE", "TOCPHA"); ("vitaminK", "VITK1") ].

(** [round(nutrients.get(key, {}).get('quantity', 0), 1)] *)
Definition get_nutrient (nutrients : json) (key : string) : res pynum :=
  entry ← dict_get nutrients key (JObj ∅);
  quantity ← dict_get entry "quantity" (JInt 0);
  py_round1 quantity.

(** The values of the dict literal after ["calories"], evaluated left to
    right. *)
Fixpoint get_nutrients (nutrients : json) (fields : list (string * string))
  : res (list (string * json)) :=
  match fields with
  | [] => Ret []
  | (name, key) :: fields' =>
      x ← get_nutrient nutrients key;
      rest ← get_nutrients nutrients fields';
      Ret ((name, num_to_json x) :: rest)
  end.

(** [data['ingredients'][0]['parsed'][0]] and
    [parsed_data.get('nutrients', {})] *)
Definition parsed_nutrients (data : json) : res json :=
  ingredients ← getitem data "ingredients";
  ingredient ← getitem0 ingredients;
  parsed ← getitem ingredient "parsed";
  parsed_data ← getitem0 parsed;
  dict_get parsed_data "nutrients" (JObj ∅).

(** [int(get_nutrient('ENERC_KCAL'))] *)
Definition calories_of (nutrients : json) : res Z :=
  energy ← get_nutrient nutrients "ENERC_KCAL";
  py_int energy.

Definition formatted_data (calories : Z) (rest : list (string * json)) : json :=
  JObj (<["nutritionPer100g" :=
            JObj (<["calories" := JInt calories]> (list_to_map rest))]>
        (<["allergens" := JArr []]> ∅)).

(** The function body from the parsed response on. *)
Definition format_response (data : json) : res json :=
  match parsed_nutrients data with
  | Raise IndexError | Raise KeyError => Ret JNull
  | Raise e => Raise e
  | Ret nutrients =>
      if negb (truthy nutrients) then Ret JNull
      else
        calories ← calories_of nutrients;
        if calories =? 0 then Ret JNull
        else
          rest ← get_nutrients nutrients nutrient_fields;
          Ret (formatted_data calories rest)
  end.

Definition placeholder_credentials (cfg : config) : bool :=
  bool_decide (APP_ID cfg = Some "EDAMAM_APP_ID")
  || bool_decide (APP_KEY cfg = Some "EDAMAM_APP_KEY").

Definition api_request (cfg : config) (food_name : string) : http_request :=
  {| url := "https://api.edamam.com/api/nutrition-details?app_id="
            +:+ fmt (APP_ID cfg) +:+ "&app_key=" +:+ fmt (APP_KEY cfg);
     payload := JObj {[ "ingr" := JArr [JStr ("100g " +:+ lower food_name)] ]} |}.

Definition get_nutrition_data_from_api (cfg : config) (o : oracle)
    (food_name : string) : M json :=
  _ ← log (EvProvider food_name);
  if placeholder_credentials cfg then mret JNull
  else
    let r := api_request cfg food_name in
    _ ← log (EvPost r);
    match net o r with
    | RequestException => mret JNull
    | HttpJson data => lift (format_response data)
    end.

(** ** [analyze] *)

Record prediction := { label : string; confidence : pyfloat }.

(** [request.files]: the uploaded image, if any, stands for what the
    classifier makes of it ([predict_image] returns the ranked predictions
    or raises). *)
Record request := { files_image : option (res (list prediction)) }.

Inductive response :=
  | Analysis (predictions : list prediction) (nutritionPer100g allergens : json)
  | Error (status : Z) (message : string).

Definition predict_image (file : res (list prediction)) : res (list prediction) :=
  file.

(** [predictions[0]] *)
Definition first_prediction (predictions : list prediction) : res prediction :=
  match predictions with
  | p :: _ => Ret p
  | [] => Raise IndexError
  end.

(** The [try: with open(DB_FILE_PATH, 'w') ... except IOError] block: the
    whole of [nutrition_db] replaces what the file held. *)
Definition dump_db (o : oracle) : M unit := fun w =>
  (Ret (),
   {| nutrition_db := nutrition_db w;
      db_file := match disk o with
                 | WriteOk => Snapshot (nutrition_db w)
                 | OpenFails => db_file w
                 | DumpFails => NotJson
                 end;
      trace := trace w |}).

(** [with db_lock:] in a handler that runs alone: the lock is free when it
    is entered and free again when it is left.  The two-thread model below
    has the lock itself. *)
Definition with_db_lock {A} (body : M A) : M A := body.

(** The response dict and [jsonify]. *)
Definition respond (predictions : list prediction) (nutrition_data : json)
  : res response :=
  per100g ← (if truthy nutrition_data
              then dict_get nutrition_data "nutritionPer100g" JNull
              else Ret JNull);
  allergens ← (if truthy nutrition_data
                then dict_get nutrition_data "allergens" JNull
                else Ret (JArr []));
  Ret (Analysis predictions per100g allergens).

Definition analyze (cfg : config) (o : oracle) (request : request) : M response :=
  match files_image request with
  | None => mret (Error 400 "No image file provided")
  | Some file =>
      try_except
        (predictions ← lift (predict_image file);
         top ← lift (first_prediction predictions);
         let top_prediction_label := label top in
         db ← read_db;
         hit ← lift (contains top_prediction_label db);
         nutrition_data ←
           (if hit : bool then
              db ← read_db;
              lift (getitem db top_prediction_label)
            else
              nutrition_data ← get_nutrition_data_from_api cfg o top_prediction_label;
              if truthy nutrition_data then
                _ ← with_db_lock (
                      db ← read_db;
                      db' ← lift (setitem db top_prediction_label nutrition_data);
                      _ ← write_db db';
                      dump_db o);
                mret nutrition_data
              else mret nutrition_data);
         lift (respond predictions nutrition_data))
        (fun _ => mret (Error 500 "Failed to analyze image"))
  end.

(** Requests served one after the other. *)
Fixpoint serve (cfg : config) (rs : list (oracle * request)) : M (list response) :=
  match rs with
  | [] => mret []
  | (o, rq) :: rs' =>
      r ← analyze cfg o rq;
      rest ← serve cfg rs';
      mret (r :: rest)
  end.

(** ** Start-up *)

Inductive boot :=
  | Crashed
  | Running (w : world).

(** The [try: ... json.load ... len(nutrition_db) ... except
    (FileNotFoundError, json.JSONDecodeError)] block at import time. *)
Definition startup (f : db_file_state) : boot :=
  match f with
  | NotFound | NotJson =>
      Running {| nutrition_db := JObj ∅; db_file := f; trace := [] |}
  | Unreadable => Crashed
  | Snapshot v =>
      match py_len v with
      | Ret _ => Running {| nutrition_db := v; db_file := f; trace := [] |}
      | Raise _ => Crashed
      end
  end.

(** ** The paths of a request, in closed form *)

(** [get_nutrition_data_from_api] touches nothing but the trace, and what it
    returns does not depend on the state it runs in. *)
Definition fetch_result (cfg : config) (o : oracle) (food_name : string) : res json :=
  if placeholder_credentials cfg then Ret JNull
  else match net o (api_request cfg food_name) with
       | RequestException => Ret JNull
       | HttpJson data => format_response data
       end.

Definition fetch_events (cfg : config) (food_name : string) : list event :=
  EvProvider food_name ::
  (if placeholder_credentials cfg then [] else [EvPost (api_request cfg food_name)]).

Definition add_trace (evs : list event) (w : world) : world :=
  {| nutrition_db := nutrition_db w; db_file := db_file w;
     trace := trace w ++ evs |}.

Definition written (o : oracle) (db : json) (old : db_file_state) : db_file_state :=
  match disk o with
  | WriteOk => Snapshot db
  | OpenFails => old
  | DumpFails => NotJson
  end.

Definition provider_calls (evs : list event) : list string :=
  omap (fun ev => match ev with EvProvider f => Some f | _ => None end) evs.

Definition http_posts (evs : list event) : list http_request :=
  omap (fun ev => match ev with EvPost r => Some r | _ => None end) evs.

Definition upload (predictions : list prediction) : request :=
  {| files_image := Some (Ret predictions) |}.

Definition server_error : response := Error 500 "Failed to analyze image".

(** The handler's [except Exception] around [respond]. *)
Definition respond_or_500 (predictions : list prediction) (nutrition_data : json)
  : response :=
  match respond predictions nutrition_data with
  | Ret r => r
  | Raise _ => server_error
  end.


(** ** Records and the cache invariant *)

Definition field_names : list string := "calories" :: (nutrient_fields.*1).

Definition is_number (v : json) : bool :=
  match v with
  | JInt _ | JFloat _ => true
  | _ => false
  end.

Definition has_number (per100g : gmap string json) (name : string) : bool :=
  match per100g !! name with
  | Some x => is_number x
  | None => false
  end.

(** A nutrition record with nothing missing: every one of the 24 nutrient
    fields holds a number, and the allergens are a list. *)
Definition complete_record (v : json) : bool :=
  match v with
  | JObj m =>
      match m !! "nutritionPer100g", m !! "allergens" with
      | Some (JObj per100g), Some (JArr _) => forallb (has_number per100g) field_names
      | _, _ => false
      end
  | _ => false
  end.

(** The cache is a dict, and every key maps to a complete record. *)
Definition cache_ok (db : json) : Prop :=
  ∃ m : gmap string json,
    db = JObj m ∧ ∀ k v, m !! k = Some v → complete_record v = true.

(** The file holds nothing, or a cache that is fine. *)
Definition file_ok (f : db_file_state) : Prop :=
  match f with
  | NotFound | NotJson | Unreadable => True
  | Snapshot v => cache_ok v
  end.

Definition top_label (rq : request) : option string :=
  match files_image rq with
  | Some (Ret (top :: _)) => Some (label top)
  | _ => None
  end.

(** [k] is the top label of one of the requests, and the provider answered
    that request with [v], which is not [None]. *)
Definition fetched (cfg : config) (rs : list (oracle * request))
    (k : string) (v : json) : Prop :=
  ∃ o rq, (o, rq) ∈ rs ∧ top_label rq = Some k
          ∧ fetch_result cfg o k = Ret v ∧ v ≠ JNull.

(** ** Two handlers at once

    The handler cut into the steps between which another thread may run.
    A thread reads or writes the shared state once per step: the membership
    test, the subscript, the provider call, entering [with db_lock], the
    assignment, the file write, leaving [with db_lock].  Classification and
    the assembly of the response touch nothing shared. *)
Inductive thread :=
  | TStart (rq : request)
  | TCheck (predictions : list prediction) (top_prediction_label : string)
  | TRead (predictions : list prediction) (top_prediction_label : string)
  | TFetch (predictions : list prediction) (top_prediction_label : string)
  | TAcquire (predictions : list prediction) (top_prediction_label : string)
             (nutrition_data : json)
  | TInsert (predictions : list prediction) (top_prediction_label : string)
            (nutrition_data : json)
  | TDump (predictions : list prediction) (nutrition_data : json)
  | TRelease (predictions : list prediction) (outcome : res json)
  | TRespond (predictions : list prediction) (nutrition_data : json)
  | TDone (r : response).

(** The globals and [db_lock] ([true] when a thread holds it). *)
Record system := { shared : world; db_lock : bool }.

Definition classify (rq : request) : thread :=
  match files_image rq with
  | None => TDone (Error 400 "No image file provided")
  | Some file =>
      match predictions ← predict_image file;
            top ← first_prediction predictions;
            Ret (predictions, label top) with
      | Ret (predictions, top_prediction_label) =>
          TCheck predictions top_prediction_label
      | Raise _ => TDone server_error
      end
  end.

(** One step of a thread; [None] when it cannot move: it waits for the
    lock, or it has answered. *)
Definition thread_step (cfg : config) (o : oracle) (t : thread) (s : system)
  : option (thread * system) :=
  let w := shared s in
  match t with
  | TStart rq => Some (classify rq, s)
  | TCheck ps l =>
      match contains l (nutrition_db w) with
      | Ret true => Some (TRead ps l, s)
      | Ret false => Some (TFetch ps l, s)
      | Raise _ => Some (TDone server_error, s)
      end
  | TRead ps l =>
      match getitem (nutrition_db w) l with
      | Ret v => Some (TRespond ps v, s)
      | Raise _ => Some (TDone server_error, s)
      end
  | TFetch ps l =>
      let '(r, w') := get_nutrition_data_from_api cfg o l w in
      let s' := {| shared := w'; db_lock := db_lock s |} in
      match r with
      | Ret d => Some (if truthy d then TAcquire ps l d else TRespond ps d, s')
      | Raise _ => Some (TDone server_error, s')
      end
  | TAcquire ps l d =>
      if db_lock s then None
      else Some (TInsert ps l d, {| shared := w; db_lock := true |})
  | TInsert ps l d =>
      match setitem (nutrition_db w) l d with
      | Ret db' =>
          Some (TDump ps d, {| shared := snd (write_db db' w); db_lock := db_lock s |})
      | Raise e => Some (TRelease ps (Raise e), s)
      end
  | TDump ps d =>
      Some (TRelease ps (Ret d),
            {| shared := snd (dump_db o w); db_lock := db_lock s |})
  | TRelease ps r =>
      Some (match r with
            | Ret d => TRespond ps d
            | Raise _ => TDone server_error
            end,
            {| shared := w; db_lock := false |})
  | TRespond ps d => Some (TDone (respond_or_500 ps d), s)
  | TDone _ => None
  end.

(** A handler that runs alone, for at most [n] steps. *)
Fixpoint solo (cfg : config) (o : oracle) (n : nat) (t : thread) (s : system)
  : thread * system :=
  match n with
  | O => (t, s)
  | S n' =>
      match thread_step cfg o t s with
      | Some (t', s') => solo cfg o n' t' s'
      | None => (t, s)
      end
  end.

(** Two handlers and what they share. *)
Record state := { thread1 : thread; thread2 : thread; sys : system }.

(** The scheduler picks a thread ([true] for the first); a thread that
    cannot move leaves the state as it is. *)
Definition step (cfg : config) (o1 o2 : oracle) (pick : bool) (st : state) : state :=
  if pick then
    match thread_step cfg o1 (thread1 st) (sys st) with
    | Some (t, s) => {| thread1 := t; thread2 := thread2 st; sys := s |}
    | None => st
    end
  else
    match thread_step cfg o2 (thread2 st) (sys st) with
    | Some (t, s) => {| thread1 := thread1 st; thread2 := t; sys := s |}
    | None => st
    end.

Definition run (cfg : config) (o1 o2 : oracle) (schedule : list bool) (st : state)
  : state :=
  foldl (fun st pick => step cfg o1 o2 pick st) st schedule.

Definition concurrent (rq1 rq2 : request) (w : world) : state :=
  {| thread1 := TStart rq1; thread2 := TStart rq2;
     sys := {| shared := w; db_lock := false |} |}.

Definition answered (t : thread) : option response :=
  match t with
  | TDone r => Some r
  | _ => None
  end.

(** ** Sample data *)

Definition quantity (x : json) : json := JObj {[ "quantity" := x ]}.

(** An Edamam reply with one parsed ingredient. *)
Definition edamam_reply (nutrients : json) : json :=
  JObj {[ "ingredients" :=
            JArr [ JObj {[ "parsed" :=
                             JArr [ JObj {[ "nutrients" := nutrients ]} ] ]} ] ]}.

Definition pizza_nutrients : json :=
  JObj (<["ENERC_KCAL" := quantity (JFloat (FFin (26641 # 100)))]>
        (<["PROCNT" := quantity (JFloat (FFin (1138 # 100)))]>
         {[ "FAT" := quantity (JInt 10) ]})).

(** 0.9 kcal, as the float nearest to it. *)
Definition nearly_nothing : json :=
  JObj {[ "ENERC_KCAL" :=
            quantity (JFloat (FFin (8106479329266893 # 9007199254740992))) ]}.

Definition water_nutrients : json :=
  JObj (<["ENERC_KCAL" := quantity (JInt 0)]> {[ "WATER" := quantity (JInt 100) ]}).

Definition pizza : prediction := {| label := "Pizza"; confidence := FFin (9 # 10) |}.
Definition pasta : prediction := {| label := "Pasta"; confidence := FFin (6 # 100) |}.
Definition salad : prediction := {| label := "Salad"; confidence := FFin (4 # 100) |}.

Definition credentials : config := {| APP_ID := Some "a1b2"; APP_KEY := Some "c3d4" |}.
Definition no_credentials : config := {| APP_ID := None; APP_KEY := None |}.
Definition placeholders : config :=
  {| APP_ID := Some "EDAMAM_APP_ID"; APP_KEY := Some "EDAMAM_APP_KEY" |}.

Definition replies (data : json) : oracle :=
  {| net := fun _ => HttpJson data; disk := WriteOk |}.
Definition offline : oracle :=
  {| net := fun _ => RequestException; disk := WriteOk |}.

Definition fresh : world :=
  {| nutrition_db := JObj ∅; db_file := NotFound; trace := [] |}.

Definition pizza_record : json :=
  match format_response (edamam_reply pizza_nutrients) with
  | Ret v => v
  | Raise _ => JNull
  end.

Definition pasta_nutrients : json :=
  JObj (<["ENERC_KCAL" := quantity (JInt 131)]>
        {[ "CHOCDF" := quantity (JFloat (FFin (2505 # 100))) ]}).

Definition pasta_record : json :=
  match format_response (edamam_reply pasta_nutrients) with
  | Ret v => v
  | Raise _ => JNull
  end.

(** Turn by turn, first handler first. *)
Definition alternating : list bool := mjoin (replicate 12 [true; false]).

Definition with_pizza : world :=
  {| nutrition_db := JObj {[ "Pizza" := pizza_record ]};
     db_file := Snapshot (JObj {[ "Pizza" := pizza_record ]}); trace := [] |}.

(** The ranked predictions of an upload the classifier accepted. *)
Definition predictions_of (rq : request) : list prediction :=
  match files_image rq with
  | Some (Ret predictions) => predictions
  | _ => []
  end.

(** The answer to a request whose lookup found nothing. *)
Definition without_nutrition (rq : request) : response :=
  Analysis (predictions_of rq) JNull (JArr []).

(** The failing lookups for a label [l]: requests whose top prediction is
    [l] and which the provider answers with nothing. *)
Definition fails_for (cfg : config) (l : string) (x : oracle * request) : Prop :=
  top_label x.2 = Some l ∧ fetch_result cfg x.1 l = Ret JNull.

(** The events a run added to the trace. *)
Definition new_events (before after : world) : list event :=
  drop (length (trace before)) (trace after).

(** [k] came with the file read at start-up, mapped to [v]. *)
Definition loaded (f : db_file_state) (k : string) (v : json) : Prop :=
  ∃ m0 : gmap string json, f = Snapshot (JObj m0) ∧ m0 !! k = Some v.

(** ** Bookkeeping for two handlers that both miss and both fetch *)

(** How far a handler is on the write path: 0 before it holds the lock, 1
    holding it, 2 after the assignment, 3 after the file write, 4 once the
    lock is released. *)
Definition stage_of (t : thread) : nat :=
  match t with
  | TStart _ | TCheck _ _ | TRead _ _ | TFetch _ _ | TAcquire _ _ _ => 0
  | TInsert _ _ _ => 1
  | TDump _ _ => 2
  | TRelease _ _ => 3
  | TRespond _ _ | TDone _ => 4
  end.

Definition holding (n : nat) : bool := (1 <=? n)%nat && (n <=? 3)%nat.

Definition ins (b : bool) (l : string) (r : json) (m : gmap string json)
  : gmap string json :=
  if b then <[l := r]> m else m.

(** The thread is on the path of a request with predictions [ps] and top
    label [l] that the provider answers with [r]. *)
Definition on_path (ps : list prediction) (l : string) (r : json) (t : thread)
  : Prop :=
  t = TStart (upload ps) ∨ t = TCheck ps l ∨ t = TFetch ps l
  ∨ t = TAcquire ps l r ∨ t = TInsert ps l r ∨ t = TDump ps r
  ∨ t = TRelease ps (Ret r) ∨ t = TRespond ps r
  ∨ t = TDone (respond_or_500 ps r).

(** What holds of the shared state, given how far the two handlers are. *)
Record consistent (m : gmap string json) (oa ob : oracle)
    (la : string) (ra : json) (lb : string) (rb : json)
    (ta tb : thread) (s : system) : Prop := {
  lock_held : db_lock s = holding (stage_of ta) || holding (stage_of tb);
  lock_exclusive : holding (stage_of ta) && holding (stage_of tb) = false;
  cache_is :
    nutrition_db (shared s)
    = JObj (ins (2 <=? stage_of ta)%nat la ra
              (ins (2 <=? stage_of tb)%nat lb rb m));
  file_is :
    disk oa = WriteOk → disk ob = WriteOk →
    (3 <=? stage_of ta)%nat || (3 <=? stage_of tb)%nat = true →
    db_file (shared s)
    = Snapshot (JObj (ins (3 <=? stage_of ta)%nat la ra
                        (ins (3 <=? stage_of tb)%nat lb rb m)))
}.

(** Two handlers on their paths over a consistent shared state. *)
Definition both_on_path (m : gmap string json) (o1 o2 : oracle)
    (ps1 : list prediction) (l1 : string) (r1 : json)
    (ps2 : list prediction) (l2 : string) (r2 : json) (st : state) : Prop :=
  on_path ps1 l1 r1 (thread1 st) ∧ on_path ps2 l2 r2 (thread2 st)
  ∧ consistent m o1 o2 l1 r1 l2 r2 (thread1 st) (thread2 st) (sys st).

(** ** [predict_image]: from the top three to the predictions *)

Definition is_upper (c : Ascii.ascii) : bool :=
  let n := Ascii.nat_of_ascii c in ((65 <=? n) && (n <=? 90))%nat.

Definition is_lower (c : Ascii.ascii) : bool :=
  let n := Ascii.nat_of_ascii c in ((97 <=? n) && (n <=? 122))%nat.

Definition is_cased (c : Ascii.ascii) : bool := is_upper c || is_lower c.

Definition upper_ascii (c : Ascii.ascii) : Ascii.ascii :=
  if is_lower c then Ascii.ascii_of_nat (Ascii.nat_of_ascii c - 32) else c.

Definition underscore : Ascii.ascii := Ascii.ascii_of_nat 95.
Definition space : Ascii.ascii := Ascii.ascii_of_nat 32.

(** [str.replace("_", " ")] *)
Fixpoint replace_underscores (s : string) : string :=
  match s with
  | EmptyString => EmptyString
  | String c s' =>
      String (if Ascii.eqb c underscore then space else c) (replace_underscores s')
  end.

(** [str.title()] on ASCII text: a letter that follows a letter is put in
    lower case, any other letter in upper case. *)
Fixpoint title_from (previous_is_cased : bool) (s : string) : string :=
  match s with
  | EmptyString => EmptyString
  | String c s' =>
      String (if previous_is_cased then lower_ascii c else upper_ascii c)
             (title_from (is_cased c) s')
  end.

Definition title (s : string) : string := title_from false s.

(** [class_names[catid].replace("_", " ").title()] *)
Definition class_label (class_names : list string) (catid : nat) : res string :=
  match class_names !! catid with
  | Some name => Ret (title (replace_underscores name))
  | None => Raise IndexError
  end.

(** The loop of [predict_image] over what [torch.topk] returned, the
    probabilities with their category ids, best first. *)
Fixpoint collect_predictions (class_names : list string)
    (top3 : list (pyfloat * nat)) : res (list prediction) :=
  match top3 with
  | [] => Ret []
  | (prob, catid) :: top3' =>
      class_name ← class_label class_names catid;
      predictions ← collect_predictions class_names top3';
      Ret ({| label := class_name; confidence := prob |} :: predictions)
  end.

(** ** More bookkeeping *)

(** The same outside, with another outcome of the file write. *)
Definition with_disk (d : write_outcome) (o : oracle) : oracle :=
  {| net := net o; disk := d |}.

Fixpoint has_underscore (s : string) : bool :=
  match s with
  | EmptyString => false
  | String c s' => Ascii.eqb c underscore || has_underscore s'
  end.

(** The steps a handler has left when nothing holds it up. *)
Definition remaining (t : thread) : nat :=
  match t with
  | TStart _ => 8
  | TCheck _ _ => 7
  | TRead _ _ => 2
  | TFetch _ _ => 6
  | TAcquire _ _ _ => 5
  | TInsert _ _ _ => 4
  | TDump _ _ => 3
  | TRelease _ _ => 2
  | TRespond _ _ => 1
  | TDone _ => 0
  end.

(** A schedule that lets the handlers finish from wherever they are: the
    second runs, then the first, then the second again. *)
Definition drain : list bool :=
  replicate 8 false ++ replicate 8 true ++ replicate 8 false.

(** A reply whose protein quantity is a string. *)
Definition odd_nutrients (kcal : Z) : json :=
  JObj (<["ENERC_KCAL" := quantity (JInt kcal)]>
        {[ "PROCNT" := quantity (JStr "n/a") ]}).

(** ** Start-up and records, case by case *)

(** A JSON number, boolean or [null]: a value [len()] does not take. *)
Definition is_scalar (v : json) : bool :=
  match v with
  | JNull | JBool _ | JInt _ | JFloat _ => true
  | JStr _ | JArr _ | JObj _ => false
  end.

(** [get_nutrient(key)] returns, it does not raise. *)
Definition readable (nutrients : json) (key : string) : bool :=
  match get_nutrient nutrients key with
  | Ret _ => true
  | Raise _ => false
  end.

(** Text made of ASCII characters only; on such text [lower] and [title]
    are [str.lower] and [str.title]. *)
Fixpoint ascii_only (s : string) : bool :=
  match s with
  | EmptyString => true
  | String c s' => (Ascii.nat_of_ascii c <? 128)%nat && ascii_only s'
  end.

(** ** What a request does, path by path *)

Ltac run_M :=
  cbv [mbind mret M_bind M_ret res_bind res_ret lift read_db write_db log
       try_except with_db_lock predict_image dump_db]; simpl.

Lemma get_nutrition_data_from_api_run cfg o food_name w :
  get_nutrition_data_from_api cfg o food_name w
  = (fetch_result cfg o food_name, add_trace (fetch_events cfg food_name) w).
Proof.
  unfold get_nutrition_data_from_api, fetch_result, fetch_events, add_trace.
  run_M. destruct (placeholder_credentials cfg); simpl; [done|].
  rewrite <- app_assoc. simpl.
  by destruct (net o (api_request cfg food_name)).
Qed.

Lemma contains_dict m k :
  contains k (JObj m) = Ret (bool_decide (is_Some (m !! k))).
Proof. done. Qed.

Lemma analyze_hit cfg o w m top rest v :
  nutrition_db w = JObj m →
  m !! label top = Some v →
  analyze cfg o (upload (top :: rest)) w
  = (Ret (respond_or_500 (top :: rest) v), w).
Proof.
  intros Hdb Hv. unfold analyze, respond_or_500. run_M. rewrite Hdb. simpl.
  rewrite bool_decide_true by eauto. simpl. rewrite Hdb. simpl. rewrite Hv.
  by destruct (respond (top :: rest) v).
Qed.

Lemma analyze_miss cfg o w m top rest :
  nutrition_db w = JObj m →
  m !! label top = None →
  analyze cfg o (upload (top :: rest)) w
  = match fetch_result cfg o (label top) with
    | Raise _ => (Ret server_error, add_trace (fetch_events cfg (label top)) w)
    | Ret v =>
        if truthy v then
          (Ret (respond_or_500 (top :: rest) v),
           {| nutrition_db := JObj (<[label top := v]> m);
              db_file := written o (JObj (<[label top := v]> m)) (db_file w);
              trace := trace w ++ fetch_events cfg (label top) |})
        else
          (Ret (Analysis (top :: rest) JNull (JArr [])),
           add_trace (fetch_events cfg (label top)) w)
    end.
Proof.
  intros Hdb Hv. unfold analyze, respond_or_500. run_M. rewrite Hdb. simpl.
  rewrite bool_decide_false by (rewrite Hv; by intros [? ?]). simpl.
  rewrite get_nutrition_data_from_api_run.
  destruct (fetch_result cfg o (label top)) as [v|e]; [|done].
  destruct (truthy v) eqn:Ht; simpl.
  - rewrite Hdb. simpl. unfold written.
    destruct (respond (top :: rest) v); done.
  - unfold respond. rewrite Ht. done.
Qed.

(** ** Numbers *)

Lemma trunc_tenths (t : Z) : trunc (t # 10) = Z.quot t 10.
Proof. done. Qed.

Lemma quot_10_zero (t : Z) : -10 < t < 10 → Z.quot t 10 = 0.
Proof.
  intros [Hlo Hhi]. destruct (Z.le_gt_cases 0 t) as [Hpos|Hneg].
  - apply Z.quot_small. lia.
  - rewrite <- (Z.opp_involutive t), Z.quot_opp_l by lia.
    rewrite Z.quot_small; lia.
Qed.

Lemma quot_10_zero_inv (t : Z) : Z.quot t 10 = 0 → -10 < t < 10.
Proof.
  intros H. pose proof (Z.quot_rem' t 10) as E. rewrite H in E.
  pose proof (Z.rem_bound_abs t 10). lia.
Qed.

(** ** Records built by [format_response] *)

Lemma get_nutrient_missing (n : gmap string json) key :
  n !! key = None → get_nutrient (JObj n) key = Ret (NInt 0).
Proof. intros H. unfold get_nutrient. simpl. by rewrite H. Qed.

Lemma get_nutrient_float (n entry : gmap string json) key q :
  n !! key = Some (JObj entry) →
  entry !! "quantity" = Some (JFloat (FFin q)) →
  get_nutrient (JObj n) key = Ret (NFloat (FFin (tenths q # 10))).
Proof. intros Hn He. unfold get_nutrient. simpl. rewrite Hn. simpl. by rewrite He. Qed.

Lemma is_number_num (x : pynum) : is_number (num_to_json x) = true.
Proof. by destruct x. Qed.

Lemma get_nutrients_lookup nutrients fields rest :
  get_nutrients nutrients fields = Ret rest →
  NoDup (fields.*1) →
  ∀ name key, (name, key) ∈ fields →
    ∃ x, get_nutrient nutrients key = Ret x
         ∧ (list_to_map rest : gmap string json) !! name = Some (num_to_json x).
Proof.
  revert rest. induction fields as [|[name0 key0] fields IH]; intros rest Hrun Hnd name key Hin.
  - by apply elem_of_nil in Hin.
  - simpl in Hrun. cbv [mbind res_bind] in Hrun.
    destruct (get_nutrient nutrients key0) as [x0|] eqn:Hx0; [|done].
    destruct (get_nutrients nutrients fields) as [rest'|] eqn:Hrest; [|done].
    injection Hrun as <-. simpl in Hnd. apply NoDup_cons in Hnd as [Hfresh Hnd].
    apply elem_of_cons in Hin as [Heq|Hin].
    + injection Heq as -> ->. exists x0. split; [done|]. simpl.
      apply lookup_insert_eq.
    + destruct (IH rest' eq_refl Hnd name key Hin) as (x & Hx & Hlk).
      exists x. split; [done|]. simpl. rewrite lookup_insert_ne; [done|].
      intros ->. apply Hfresh. apply list_elem_of_fmap. by exists (name, key).
Qed.

Lemma nutrient_fields_nodup : NoDup (nutrient_fields.*1).
Proof. apply (bool_decide_unpack _). by vm_compute. Qed.

Lemma nutrient_fields_not_calories name key :
  (name, key) ∈ nutrient_fields → name ≠ "calories".
Proof.
  intros Hin ->. revert Hin. apply (bool_decide_unpack _). by vm_compute.
Qed.

Lemma format_response_inv data v :
  format_response data = Ret v →
  v ≠ JNull →
  ∃ nutrients c rest,
    parsed_nutrients data = Ret nutrients ∧ truthy nutrients = true
    ∧ calories_of nutrients = Ret c ∧ c ≠ 0
    ∧ get_nutrients nutrients nutrient_fields = Ret rest
    ∧ v = formatted_data c rest.
Proof.
  unfold format_response. intros Hrun Hv.
  destruct (parsed_nutrients data) as [nutrients|e].
  - remember (get_nutrients nutrients nutrient_fields) as fields eqn:Hrest.
    destruct (truthy nutrients) eqn:Ht; simpl in Hrun; [|congruence].
    cbv [mbind res_bind] in Hrun.
    destruct (calories_of nutrients) as [c|] eqn:Hc; [|done].
    destruct (c =? 0) eqn:Hz; [congruence|].
    destruct fields as [rest|]; [|done].
    injection Hrun as <-. exists nutrients, c, rest.
    repeat split; try done. by apply Z.eqb_neq.
  - destruct e; congruence.
Qed.

Lemma nonempty_truthy (m : gmap string json) k x :
  m !! k = Some x → truthy (JObj m) = true.
Proof.
  intros H. simpl. destruct (size m) eqn:Hs; [|done].
  apply map_size_empty_iff in Hs. subst m. by rewrite lookup_empty in H.
Qed.

Lemma complete_record_dict (m : gmap string json) :
  complete_record (JObj m)
  = match m !! "nutritionPer100g", m !! "allergens" with
    | Some (JObj per100g), Some (JArr _) => forallb (has_number per100g) field_names
    | _, _ => false
    end.
Proof. done. Qed.

Lemma complete_record_truthy v : complete_record v = true → truthy v = true.
Proof.
  destruct v as [| | | | | |m]; try done. rewrite complete_record_dict.
  destruct (m !! "nutritionPer100g") as [x|] eqn:Hx; [|done].
  intros _. by eapply nonempty_truthy.
Qed.

Lemma complete_record_not_null v : complete_record v = true → v ≠ JNull.
Proof. by intros H ->. Qed.

Lemma formatted_data_fields c rest :
  ∃ m : gmap string json,
    formatted_data c rest = JObj m
    ∧ m !! "nutritionPer100g"
      = Some (JObj (<["calories" := JInt c]> (list_to_map rest)))
    ∧ m !! "allergens" = Some (JArr []).
Proof.
  eexists. split; [done|]. split.
  - apply lookup_insert_eq.
  - rewrite lookup_insert_ne by done. apply lookup_insert_eq.
Qed.

Lemma formatted_data_has_number nutrients c rest name :
  get_nutrients nutrients nutrient_fields = Ret rest →
  name ∈ field_names →
  has_number (<["calories" := JInt c]> (list_to_map rest)) name = true.
Proof.
  intros Hrest Hin. unfold has_number, field_names in *.
  apply elem_of_cons in Hin as [->|Hin].
  - by rewrite lookup_insert_eq.
  - apply list_elem_of_fmap in Hin as ([name' key] & -> & Hin). simpl.
    rewrite lookup_insert_ne
      by (apply not_eq_sym; by eapply nutrient_fields_not_calories).
    destruct (get_nutrients_lookup _ _ _ Hrest nutrient_fields_nodup _ _ Hin)
      as (x & _ & ->).
    apply is_number_num.
Qed.

Lemma formatted_data_complete nutrients c rest :
  get_nutrients nutrients nutrient_fields = Ret rest →
  complete_record (formatted_data c rest) = true.
Proof.
  intros Hrest. destruct (formatted_data_fields c rest) as (m & -> & Hp & Ha).
  rewrite complete_record_dict, Hp, Ha. apply forallb_forall. intros name Hin.
  eapply formatted_data_has_number; [done|]. by apply list_elem_of_In.
Qed.

Lemma null_or_not (v : json) : v = JNull ∨ v ≠ JNull.
Proof. destruct v; [by left|by right..]. Qed.

Lemma format_response_cases data v :
  format_response data = Ret v → v = JNull ∨ complete_record v = true.
Proof.
  intros Hrun. destruct (null_or_not v) as [|Hv]; [by left|right].
  destruct (format_response_inv _ _ Hrun Hv) as (n & c & rest & _ & _ & _ & _ & Hr & ->).
  by eapply formatted_data_complete.
Qed.

Lemma fetch_result_cases cfg o food_name v :
  fetch_result cfg o food_name = Ret v → v = JNull ∨ complete_record v = true.
Proof.
  unfold fetch_result. destruct (placeholder_credentials cfg).
  - intros [= <-]. by left.
  - destruct (net o _) as [|data].
    + intros [= <-]. by left.
    + apply format_response_cases.
Qed.

Lemma respond_complete_record predictions v :
  complete_record v = true →
  ∃ (m per100g : gmap string json) l,
    v = JObj m ∧ m !! "nutritionPer100g" = Some (JObj per100g)
    ∧ m !! "allergens" = Some (JArr l)
    ∧ respond_or_500 predictions v = Analysis predictions (JObj per100g) (JArr l).
Proof.
  intros Hc. pose proof (complete_record_truthy _ Hc) as Ht.
  destruct v as [| | | | | |m]; try done. rewrite complete_record_dict in Hc.
  destruct (m !! "nutritionPer100g") as [[| | | | | |per100g]|] eqn:Hp; try done.
  destruct (m !! "allergens") as [[| | | | |l|]|] eqn:Ha; try done.
  exists m, per100g, l. repeat split; try done.
  unfold respond_or_500, respond. rewrite Ht. simpl. by rewrite Hp, Ha.
Qed.

(** ** The cache protocol of one request *)

(** C1. When the top prediction is a key of the cache at the start of the
    request, the request leaves the state as it found it (in particular it
    makes no provider call, so the trace does not grow), and the nutrition
    fields of the response are those of the stored record, unchanged. *)
Theorem cache_hit_serves_stored_record cfg o w (m : gmap string json) top rest record :
  nutrition_db w = JObj m →
  m !! label top = Some record →
  snd (analyze cfg o (upload (top :: rest)) w) = w
  ∧ ∀ (r : gmap string json) per100g allergens,
      record = JObj r →
      r !! "nutritionPer100g" = Some per100g →
      r !! "allergens" = Some allergens →
      fst (analyze cfg o (upload (top :: rest)) w)
      = Ret (Analysis (top :: rest) per100g allergens).
Proof.
  intros Hdb Hrec. rewrite (analyze_hit _ _ _ _ _ _ _ Hdb Hrec). split; [done|].
  intros r per100g allergens -> Hp Ha. simpl. f_equal.
  unfold respond_or_500, respond. rewrite (nonempty_truthy _ _ _ Hp). simpl.
  by rewrite Hp, Ha.
Qed.

Lemma cache_hit_serves_stored_record_witness :
  analyze credentials offline (upload [pizza; pasta; salad]) with_pizza
  = (Ret (Analysis [pizza; pasta; salad]
            (default JNull (match pizza_record with
                            | JObj r => r !! "nutritionPer100g" | _ => None end))
            (JArr [])),
     with_pizza).
Proof.
  pose proof (cache_hit_serves_stored_record credentials offline with_pizza
                {[ "Pizza" := pizza_record ]} pizza [pasta; salad] pizza_record
                eq_refl eq_refl) as [Hw Hr].
  apply injective_projections; [|exact Hw].
  refine (Hr (match pizza_record with JObj r => r | _ => ∅ end) _ _ _ _ _);
    by vm_compute.
Defined.

(** C2. When the top prediction is not in the cache, the request invokes
    [get_nutrition_data_from_api] exactly once, on the top label; at most one
    HTTP request leaves (exactly one unless the credentials are the
    placeholders), and it is the one built from the top label.  The lower
    ranked predictions play no part, and nothing is tried twice. *)
Theorem cache_miss_calls_provider_once cfg o w (m : gmap string json) top rest :
  nutrition_db w = JObj m →
  m !! label top = None →
  ∃ evs,
    trace (snd (analyze cfg o (upload (top :: rest)) w)) = trace w ++ evs
    ∧ provider_calls evs = [label top]
    ∧ http_posts evs
      = if placeholder_credentials cfg then []
        else [api_request cfg (label top)].
Proof.
  intros Hdb Hmiss. exists (fetch_events cfg (label top)).
  rewrite (analyze_miss _ _ _ _ _ _ Hdb Hmiss). split; [|split].
  - destruct (fetch_result cfg o (label top)) as [v|]; [|done].
    by destruct (truthy v).
  - unfold fetch_events. by destruct (placeholder_credentials cfg).
  - unfold fetch_events. by destruct (placeholder_credentials cfg).
Qed.

Lemma cache_miss_calls_provider_once_witness :
  ∃ evs,
    trace (snd (analyze credentials (replies (edamam_reply pizza_nutrients))
                  (upload [pizza; pasta; salad]) fresh)) = [] ++ evs
    ∧ provider_calls evs = ["Pizza"]
    ∧ http_posts evs = [api_request credentials "Pizza"].
Proof.
  exact (cache_miss_calls_provider_once credentials
           (replies (edamam_reply pizza_nutrients)) fresh ∅ pizza [pasta; salad]
           eq_refl eq_refl).
Defined.

(** C3. After a successful fetch on a miss, the state that comes with the
    response has the record under the label; any later request for the
    label is served from there without a provider call; and the file write
    replaces whatever the file held by the whole of the cache. *)
Theorem successful_fetch_is_cached_and_persisted
    cfg o w (m : gmap string json) top rest record :
  nutrition_db w = JObj m →
  m !! label top = None →
  fst (get_nutrition_data_from_api cfg o (label top) w) = Ret record →
  record ≠ JNull →
  let w' := snd (analyze cfg o (upload (top :: rest)) w) in
  nutrition_db w' = JObj (<[label top := record]> m)
  ∧ getitem (nutrition_db w') (label top) = Ret record
  ∧ fst (analyze cfg o (upload (top :: rest)) w)
    = Ret (respond_or_500 (top :: rest) record)
  ∧ db_file w' = match disk o with
                 | WriteOk => Snapshot (nutrition_db w')
                 | OpenFails => db_file w
                 | DumpFails => NotJson
                 end
  ∧ ∀ o' rest',
      analyze cfg o' (upload (top :: rest')) w'
      = (Ret (respond_or_500 (top :: rest') record), w').
Proof.
  intros Hdb Hmiss Hfetch Hrec w'. subst w'.
  rewrite get_nutrition_data_from_api_run in Hfetch. simpl in Hfetch.
  destruct (fetch_result_cases _ _ _ _ Hfetch) as [|Hc]; [done|].
  rewrite (analyze_miss _ _ _ _ _ _ Hdb Hmiss), Hfetch,
    (complete_record_truthy _ Hc). simpl.
  split; [done|]. split; [by rewrite lookup_insert_eq|]. split; [done|].
  split; [done|]. intros o' rest'.
  by apply (analyze_hit _ _ _ (<[label top := record]> m));
    [|apply lookup_insert_eq].
Qed.

Lemma successful_fetch_is_cached_and_persisted_witness :
  let w' := snd (analyze credentials (replies (edamam_reply pizza_nutrients))
                   (upload [pizza; pasta; salad]) fresh) in
  nutrition_db w' = JObj (<["Pizza" := pizza_record]> ∅)
  ∧ db_file w' = Snapshot (nutrition_db w')
  ∧ analyze credentials offline (upload [pizza]) w'
    = (Ret (respond_or_500 [pizza] pizza_record), w').
Proof.
  destruct (successful_fetch_is_cached_and_persisted credentials
              (replies (edamam_reply pizza_nutrients)) fresh ∅ pizza
              [pasta; salad] pizza_record eq_refl eq_refl)
    as (Hdb & _ & _ & Hfile & Hnext).
  - by vm_compute.
  - by vm_compute.
  - split; [exact Hdb|]. split; [exact Hfile|]. exact (Hnext offline []).
Defined.

Lemma top_label_upload rq l :
  top_label rq = Some l →
  ∃ top rest, rq = upload (top :: rest) ∧ label top = l.
Proof.
  destruct rq as [[[[|top rest]|]|]]; try done. intros [= <-]. by exists top, rest.
Qed.

Lemma analyze_failed_lookup cfg o rq w (m : gmap string json) l :
  nutrition_db w = JObj m →
  m !! l = None →
  fails_for cfg l (o, rq) →
  analyze cfg o rq w = (Ret (without_nutrition rq), add_trace (fetch_events cfg l) w).
Proof.
  intros Hdb Hmiss [Htop Hfail]. simpl in *.
  destruct (top_label_upload _ _ Htop) as (top & rest & -> & <-).
  by rewrite (analyze_miss _ _ _ _ _ _ Hdb Hmiss), Hfail.
Qed.

Lemma provider_calls_app evs1 evs2 :
  provider_calls (evs1 ++ evs2) = provider_calls evs1 ++ provider_calls evs2.
Proof. apply omap_app. Qed.

Lemma provider_calls_fetch_events cfg l : provider_calls (fetch_events cfg l) = [l].
Proof. unfold fetch_events. by destruct (placeholder_credentials cfg). Qed.

Lemma add_trace_app evs1 evs2 w :
  add_trace evs2 (add_trace evs1 w) = add_trace (evs1 ++ evs2) w.
Proof. unfold add_trace. simpl. by rewrite app_assoc. Qed.

Lemma serve_failed_lookups cfg rs w (m : gmap string json) l :
  nutrition_db w = JObj m →
  m !! l = None →
  Forall (fails_for cfg l) rs →
  ∃ evs,
    serve cfg rs w = (Ret ((without_nutrition ∘ snd) <$> rs), add_trace evs w)
    ∧ provider_calls evs = replicate (length rs) l.
Proof.
  intros Hdb Hmiss Hall. revert w Hdb.
  induction Hall as [|[o rq] rs Hfail _ IH]; intros w Hdb.
  - exists []. split; [|done]. unfold add_trace. rewrite app_nil_r. by destruct w.
  - destruct (IH (add_trace (fetch_events cfg l) w) Hdb) as (evs & Hrun & Hcalls).
    exists (fetch_events cfg l ++ evs). split.
    + simpl. cbv [mbind M_bind].
      rewrite (analyze_failed_lookup _ _ _ _ _ _ Hdb Hmiss Hfail), Hrun.
      cbv [mret M_ret]. simpl. by rewrite add_trace_app.
    + by rewrite provider_calls_app, provider_calls_fetch_events, Hcalls.
Qed.

(** C4. When the lookup of a missing label returns nothing (the call was
    skipped, the HTTP exchange failed, the reply had no usable nutrients, or
    the calories were zero), the response has the predictions, [null] for
    the nutrition and no allergens, and neither the cache nor the file
    changes.  So the label misses again: over any run of such requests for
    the label, every single one calls the provider anew. *)
Theorem failed_lookup_is_not_cached cfg rs w (m : gmap string json) l :
  nutrition_db w = JObj m →
  m !! l = None →
  Forall (fails_for cfg l) rs →
  let w' := snd (serve cfg rs w) in
  fst (serve cfg rs w) = Ret ((without_nutrition ∘ snd) <$> rs)
  ∧ nutrition_db w' = nutrition_db w
  ∧ db_file w' = db_file w
  ∧ provider_calls (new_events w w') = replicate (length rs) l.
Proof.
  intros Hdb Hmiss Hall w'. subst w'.
  destruct (serve_failed_lookups _ _ _ _ _ Hdb Hmiss Hall) as (evs & -> & Hcalls).
  simpl. repeat split; try done.
  unfold new_events. simpl. by rewrite drop_app_length.
Qed.

Lemma failed_lookup_is_not_cached_witness :
  let rs := [(offline, upload [pizza; pasta; salad]);
             (replies (edamam_reply water_nutrients), upload [pizza; salad; pasta]);
             (replies (JObj ∅), upload [pizza])] in
  let w' := snd (serve credentials rs fresh) in
  fst (serve credentials rs fresh)
  = Ret [Analysis [pizza; pasta; salad] JNull (JArr []);
         Analysis [pizza; salad; pasta] JNull (JArr []);
         Analysis [pizza] JNull (JArr [])]
  ∧ nutrition_db w' = JObj ∅
  ∧ db_file w' = NotFound
  ∧ provider_calls (new_events fresh w') = ["Pizza"; "Pizza"; "Pizza"].
Proof.
  intros rs.
  assert (Hfail : Forall (fails_for credentials "Pizza") rs)
    by (repeat constructor; by vm_compute).
  exact (failed_lookup_is_not_cached credentials rs fresh ∅ "Pizza"
           eq_refl eq_refl Hfail).
Defined.

(** ** When the provider finds nothing *)

Lemma format_response_zero_calories data nutrients :
  parsed_nutrients data = Ret nutrients →
  truthy nutrients = true →
  calories_of nutrients = Ret 0 →
  format_response data = Ret JNull.
Proof.
  intros Hp Ht Hc. unfold format_response. rewrite Hp, Ht. simpl.
  cbv [mbind res_bind]. by rewrite Hc.
Qed.

(** The lookup returns [None] exactly at the five places where the source
    does. *)
Lemma fetch_result_null cfg o food_name :
  fetch_result cfg o food_name = Ret JNull ↔
  placeholder_credentials cfg = true
  ∨ placeholder_credentials cfg = false
    ∧ (net o (api_request cfg food_name) = RequestException
       ∨ ∃ data, net o (api_request cfg food_name) = HttpJson data
          ∧ (parsed_nutrients data = Raise KeyError
             ∨ parsed_nutrients data = Raise IndexError
             ∨ ∃ nutrients, parsed_nutrients data = Ret nutrients
                ∧ (truthy nutrients = false
                   ∨ truthy nutrients = true ∧ calories_of nutrients = Ret 0))).
Proof.
  unfold fetch_result. destruct (placeholder_credentials cfg); [naive_solver|].
  destruct (net o (api_request cfg food_name)) as [|data]; [naive_solver|].
  split.
  - intros Hrun. right. split; [done|]. right. exists data. split; [done|].
    unfold format_response in Hrun.
    destruct (parsed_nutrients data) as [nutrients|e].
    + right. right. exists nutrients. split; [done|].
      remember (get_nutrients nutrients nutrient_fields) as fields.
      destruct (truthy nutrients); [right|by left]. split; [done|].
      simpl in Hrun. cbv [mbind res_bind] in Hrun.
      destruct (calories_of nutrients) as [c|]; [|done].
      destruct (c =? 0) eqn:Hz; [by apply Z.eqb_eq in Hz as ->|].
      by destruct fields.
    + destruct e; naive_solver.
  - intros [|[_ [|(data' & [= <-] & H)]]]; try done.
    destruct H as [H|[H|(nutrients & Hp & [Ht|[Ht Hc]])]].
    + unfold format_response. by rewrite H.
    + unfold format_response. by rewrite H.
    + unfold format_response. by rewrite Hp, Ht.
    + by eapply format_response_zero_calories.
Qed.

(** C5. A provider reply whose calories come out as zero is, for the caller,
    a failed lookup: the fetch returns [None]; the request ends exactly as
    it does when the HTTP exchange fails (same response, same state, same
    calls); the nutrition fields are [null] and the label gets no cache
    entry. *)
Theorem zero_calories_is_a_failure
    cfg o o_fail w (m : gmap string json) top rest data nutrients :
  placeholder_credentials cfg = false →
  net o (api_request cfg (label top)) = HttpJson data →
  parsed_nutrients data = Ret nutrients →
  truthy nutrients = true →
  calories_of nutrients = Ret 0 →
  net o_fail (api_request cfg (label top)) = RequestException →
  nutrition_db w = JObj m →
  m !! label top = None →
  fst (get_nutrition_data_from_api cfg o (label top) w) = Ret JNull
  ∧ analyze cfg o (upload (top :: rest)) w
    = analyze cfg o_fail (upload (top :: rest)) w
  ∧ fst (analyze cfg o (upload (top :: rest)) w)
    = Ret (Analysis (top :: rest) JNull (JArr []))
  ∧ nutrition_db (snd (analyze cfg o (upload (top :: rest)) w)) = JObj m.
Proof.
  intros Hcred Hnet Hp Ht Hc Hfail Hdb Hmiss.
  assert (Hzero : fetch_result cfg o (label top) = Ret JNull).
  { unfold fetch_result. rewrite Hcred, Hnet.
    by eapply format_response_zero_calories. }
  assert (Hoff : fetch_result cfg o_fail (label top) = Ret JNull).
  { unfold fetch_result. by rewrite Hcred, Hfail. }
  rewrite get_nutrition_data_from_api_run.
  rewrite !(analyze_miss _ _ _ _ _ _ Hdb Hmiss), Hzero, Hoff. by simpl.
Qed.

Lemma zero_calories_is_a_failure_witness :
  analyze credentials (replies (edamam_reply water_nutrients))
    (upload [pizza; pasta; salad]) fresh
  = analyze credentials offline (upload [pizza; pasta; salad]) fresh
  ∧ fst (analyze credentials (replies (edamam_reply water_nutrients))
           (upload [pizza; pasta; salad]) fresh)
    = Ret (Analysis [pizza; pasta; salad] JNull (JArr []))
  ∧ nutrition_db (snd (analyze credentials (replies (edamam_reply water_nutrients))
                         (upload [pizza; pasta; salad]) fresh)) = JObj ∅.
Proof.
  refine (proj2 (zero_calories_is_a_failure credentials
                   (replies (edamam_reply water_nutrients)) offline fresh ∅
                   pizza [pasta; salad] (edamam_reply water_nutrients)
                   water_nutrients _ _ _ _ _ _ _ _));
    by vm_compute.
Defined.

(** ** Credentials *)

Lemma placeholder_credentials_skip cfg o food_name w :
  APP_ID cfg = Some "EDAMAM_APP_ID" ∨ APP_KEY cfg = Some "EDAMAM_APP_KEY" →
  get_nutrition_data_from_api cfg o food_name w
  = (Ret JNull, add_trace [EvProvider food_name] w).
Proof.
  intros H. rewrite get_nutrition_data_from_api_run.
  unfold fetch_result, fetch_events.
  assert (placeholder_credentials cfg = true) as ->; [|done].
  unfold placeholder_credentials.
  destruct H as [-> | ->]; rewrite ?bool_decide_true by done;
    [done|apply orb_true_r].
Qed.

(** C7, at the input where it fails.  With both variables unset, the guard
    of [get_nutrition_data_from_api] does not fire: an HTTP request is sent,
    with [None] spelled out in its URL, and the reply is used. *)
Theorem unset_credentials_are_not_skipped :
  placeholder_credentials no_credentials = false
  ∧ http_posts (trace (snd (get_nutrition_data_from_api no_credentials
                              (replies (edamam_reply pizza_nutrients))
                              "Pizza" fresh)))
    = [ {| url := "https://api.edamam.com/api/nutrition-details?app_id=None&app_key=None";
           payload := JObj {[ "ingr" := JArr [JStr "100g pizza"] ]} |} ]
  ∧ fst (get_nutrition_data_from_api no_credentials
           (replies (edamam_reply pizza_nutrients)) "Pizza" fresh)
    = Ret pizza_record.
Proof. by vm_compute. Qed.

(** ** Start-up *)

(** C8 as worded does not hold: not every defect of the file is swallowed.
    A file that cannot be read as text and a file that holds a bare JSON
    number both stop the process at start-up, and a file that holds a JSON
    list is loaded, so that the cache is no mapping. *)
Lemma startup_does_not_swallow_every_defect :
  (∀ w, startup Unreadable ≠ Running w)
  ∧ (∀ w, startup (Snapshot (JInt 5)) ≠ Running w)
  ∧ (∀ w, startup (Snapshot (JArr [])) = Running w → nutrition_db w ≠ JObj ∅).
Proof.
  split; [done|]. split; [done|].
  intros w [= <-]. done.
Qed.

(** C8, amended.  Start-up by what the file is.  Absent, or not a JSON
    document: the process starts with an empty dict as its cache and
    nothing is raised.  The process stops exactly when the file cannot be
    read, or when it holds a JSON number, boolean or [null].  Whenever the
    process starts, it has made no call, the file is as it was, and the
    cache is the empty dict or the very value the file holds. *)
Theorem startup_outcome_by_file f :
  (f = NotFound ∨ f = NotJson →
   startup f = Running {| nutrition_db := JObj ∅; db_file := f; trace := [] |})
  ∧ (startup f = Crashed
     ↔ f = Unreadable ∨ ∃ v, f = Snapshot v ∧ is_scalar v = true)
  ∧ (∀ w, startup f = Running w →
       db_file w = f ∧ trace w = []
       ∧ (nutrition_db w = JObj ∅ ∧ (f = NotFound ∨ f = NotJson)
          ∨ f = Snapshot (nutrition_db w) ∧ is_scalar (nutrition_db w) = false)).
Proof.
  split; [by intros [-> | ->]|]. split.
  - destruct f as [| | |v]; simpl.
    + split; [done|]. by intros [|(v & ? & _)].
    + split; [done|]. by intros [|(v & ? & _)].
    + split; [by left|done].
    + destruct v; simpl; (split; [intros H; try done; right; by eauto|]);
        try done; by intros [|(v' & [= <-] & ?)].
  - intros w. destruct f as [| | |v]; simpl.
    + intros [= <-]. simpl. split; [done|]. split; [done|]. left. by eauto.
    + intros [= <-]. simpl. split; [done|]. split; [done|]. left. by eauto.
    + done.
    + destruct v; simpl; try done; intros [= <-]; simpl;
        (split; [done|]); (split; [done|]); by right.
Qed.

Lemma startup_outcome_by_file_witness :
  startup NotJson
  = Running {| nutrition_db := JObj ∅; db_file := NotJson; trace := [] |}.
Proof.
  exact (proj1 (startup_outcome_by_file NotJson) (or_intror eq_refl)).
Defined.

(** ** Calories and the fields of a record *)

Lemma calories_of_float (n entry : gmap string json) q :
  n !! "ENERC_KCAL" = Some (JObj entry) →
  entry !! "quantity" = Some (JFloat (FFin q)) →
  calories_of (JObj n) = Ret (Z.quot (tenths q) 10).
Proof.
  intros Hn He. unfold calories_of. cbv [mbind res_bind].
  by rewrite (get_nutrient_float _ _ _ _ Hn He).
Qed.

Lemma get_nutrients_total nutrients fields :
  forallb (fun p : string * string => readable nutrients p.2) fields = true →
  ∃ rest, get_nutrients nutrients fields = Ret rest.
Proof.
  induction fields as [|[name key] fields IH]; simpl; [by eauto|].
  intros [Hkey Hrest]%andb_prop. unfold readable in Hkey. simpl in Hkey.
  cbv [mbind res_bind].
  destruct (get_nutrient nutrients key) as [x|]; [|done].
  destruct (IH Hrest) as [rest ->]. by eauto.
Qed.

Lemma get_nutrients_names nutrients fields rest :
  get_nutrients nutrients fields = Ret rest → rest.*1 = fields.*1.
Proof.
  revert rest. induction fields as [|[name key] fields IH]; intros rest Hrun.
  - by injection Hrun as <-.
  - simpl in Hrun. cbv [mbind res_bind] in Hrun.
    destruct (get_nutrient nutrients key) as [x|]; [|done].
    destruct (get_nutrients nutrients fields) as [rest'|]; [|done].
    injection Hrun as <-. simpl. f_equal. by apply IH.
Qed.

Lemma formatted_data_size nutrients c rest :
  get_nutrients nutrients nutrient_fields = Ret rest →
  size (<["calories" := JInt c]> (list_to_map rest) : gmap string json) = 24%nat.
Proof.
  intros Hrest. pose proof (get_nutrients_names _ _ _ Hrest) as Hnames.
  rewrite map_size_insert_None.
  - rewrite map_size_list_to_map by (rewrite Hnames; apply nutrient_fields_nodup).
    by rewrite <- (length_fmap fst), Hnames.
  - apply not_elem_of_list_to_map. rewrite Hnames.
    apply (bool_decide_unpack _). by vm_compute.
Qed.

Lemma calories_need_a_dict nutrients c :
  calories_of nutrients = Ret c → ∃ n : gmap string json, nutrients = JObj n.
Proof.
  unfold calories_of, get_nutrient. destruct nutrients; try done. by eauto.
Qed.

(** C10. The calories are [int(round(quantity, 1))] of the [ENERC_KCAL]
    entry: a float quantity is rounded to tenths, the tenths are truncated
    toward zero, and the zero test comes next; so a reply whose calories
    truncate to 0 (every quantity that rounds to less than 1 in size, such
    as 0.9) is answered with [None].  A reply with other calories, all of
    whose nutrients can be read, is answered with a record; the record has
    exactly 24 nutrient fields, the calories and, under each other name,
    the rounded quantity of its key, which is 0 when the reply lacks the
    key.  No other record is ever returned. *)
Theorem calories_rounding_and_complete_records data nutrients :
  parsed_nutrients data = Ret nutrients →
  truthy nutrients = true →
  (∀ (n entry : gmap string json) q,
      nutrients = JObj n →
      n !! "ENERC_KCAL" = Some (JObj entry) →
      entry !! "quantity" = Some (JFloat (FFin q)) →
      calories_of nutrients = Ret (Z.quot (tenths q) 10)
      ∧ (-10 < tenths q < 10 → format_response data = Ret JNull))
  ∧ (calories_of nutrients = Ret 0 → format_response data = Ret JNull)
  ∧ (∀ c,
      calories_of nutrients = Ret c →
      c ≠ 0 →
      forallb (fun p : string * string => readable nutrients p.2) nutrient_fields
      = true →
      ∃ (n per100g : gmap string json),
        nutrients = JObj n
        ∧ format_response data
          = Ret (JObj (<["nutritionPer100g" := JObj per100g]>
                       (<["allergens" := JArr []]> ∅)))
        ∧ size per100g = 24%nat
        ∧ per100g !! "calories" = Some (JInt c)
        ∧ (∀ name key, (name, key) ∈ nutrient_fields →
             ∃ x, get_nutrient nutrients key = Ret x
                  ∧ per100g !! name = Some (num_to_json x))
        ∧ (∀ name key, (name, key) ∈ nutrient_fields → n !! key = None →
             per100g !! name = Some (JInt 0)))
  ∧ (∀ v, format_response data = Ret v → v ≠ JNull →
      ∃ (n per100g : gmap string json) c,
        nutrients = JObj n
        ∧ calories_of nutrients = Ret c ∧ c ≠ 0
        ∧ v = JObj (<["nutritionPer100g" := JObj per100g]>
                    (<["allergens" := JArr []]> ∅))
        ∧ size per100g = 24%nat
        ∧ length field_names = 24%nat
        ∧ per100g !! "calories" = Some (JInt c)
        ∧ (∀ name, name ∈ field_names →
             ∃ x, per100g !! name = Some x ∧ is_number x = true)
        ∧ (∀ name key, (name, key) ∈ nutrient_fields → n !! key = None →
             per100g !! name = Some (JInt 0))).
Proof.
  intros Hp Ht.
  assert (Hfields : ∀ (n : gmap string json) c rest,
             nutrients = JObj n →
             get_nutrients nutrients nutrient_fields = Ret rest →
             let per100g : gmap string json :=
               <["calories" := JInt c]> (list_to_map rest) in
             (∀ name key, (name, key) ∈ nutrient_fields →
                ∃ x, get_nutrient nutrients key = Ret x
                     ∧ per100g !! name = Some (num_to_json x))
             ∧ (∀ name key, (name, key) ∈ nutrient_fields → n !! key = None →
                  per100g !! name = Some (JInt 0))).
  { intros n c rest -> Hrest per100g.
    assert (Hlook : ∀ name key, (name, key) ∈ nutrient_fields →
               ∃ x, get_nutrient (JObj n) key = Ret x
                    ∧ per100g !! name = Some (num_to_json x)).
    { intros name key Hin. unfold per100g.
      rewrite lookup_insert_ne
        by (apply not_eq_sym; by eapply nutrient_fields_not_calories).
      by apply (get_nutrients_lookup _ _ _ Hrest nutrient_fields_nodup). }
    split; [done|]. intros name key Hin Hmissing.
    destruct (Hlook name key Hin) as (x & Hx & ->).
    rewrite (get_nutrient_missing _ _ Hmissing) in Hx. by injection Hx as <-. }
  split; [|split; [|split]].
  - intros n entry q -> Hn He.
    pose proof (calories_of_float _ _ _ Hn He) as Hc. split; [done|].
    intros Hsmall. eapply format_response_zero_calories; [done..|].
    by rewrite Hc, quot_10_zero.
  - by apply format_response_zero_calories.
  - intros c Hc Hc0 Hread.
    destruct (calories_need_a_dict _ _ Hc) as [n Hn].
    destruct (get_nutrients_total _ _ Hread) as [rest Hrest].
    exists n, (<["calories" := JInt c]> (list_to_map rest)).
    destruct (Hfields n c rest Hn Hrest) as [Hlook Hzero].
    split; [done|]. split.
    { unfold format_response. rewrite Hp, Ht. simpl negb. cbv iota.
      cbv [mbind res_bind]. rewrite Hc.
      apply Z.eqb_neq in Hc0. rewrite Hc0. by rewrite Hrest. }
    split; [by eapply formatted_data_size|].
    split; [apply lookup_insert_eq|]. by split.
  - intros v Hrun Hv.
    destruct (format_response_inv _ _ Hrun Hv)
      as (nutrients' & c & rest & Hp' & _ & Hc & Hc0 & Hrest & ->).
    rewrite Hp in Hp'. injection Hp' as <-.
    destruct (calories_need_a_dict _ _ Hc) as [n Hn].
    exists n, (<["calories" := JInt c]> (list_to_map rest)), c.
    destruct (Hfields n c rest Hn Hrest) as [Hlook Hzero].
    split; [done|]. split; [done|]. split; [done|]. split; [done|].
    split; [by eapply formatted_data_size|]. split; [done|].
    split; [apply lookup_insert_eq|]. split; [|done].
    intros name Hin.
    pose proof (formatted_data_has_number _ c _ name Hrest Hin) as Hnum.
    unfold has_number in Hnum.
    destruct (_ !! name) as [x|]; [by exists x|done].
Qed.

Lemma calories_rounding_and_complete_records_witness :
  (tenths (8106479329266893 # 9007199254740992) = 9
   ∧ calories_of nearly_nothing = Ret 0
   ∧ format_response (edamam_reply nearly_nothing) = Ret JNull)
  ∧ ∃ per100g : gmap string json,
      format_response (edamam_reply pizza_nutrients)
      = Ret (JObj (<["nutritionPer100g" := JObj per100g]>
                   (<["allergens" := JArr []]> ∅)))
      ∧ size per100g = 24%nat
      ∧ per100g !! "calories" = Some (JInt 266)
      ∧ per100g !! "protein" = Some (JFloat (FFin (114 # 10)))
      ∧ per100g !! "vitaminK" = Some (JInt 0).
Proof.
  split.
  - split; [vm_compute; reflexivity|].
    destruct (calories_rounding_and_complete_records
                (edamam_reply nearly_nothing) nearly_nothing eq_refl eq_refl)
      as [Hfloat _].
    destruct (Hfloat {[ "ENERC_KCAL" :=
                          quantity (JFloat (FFin (8106479329266893 # 9007199254740992))) ]}
                {[ "quantity" := JFloat (FFin (8106479329266893 # 9007199254740992)) ]}
                (8106479329266893 # 9007199254740992) eq_refl eq_refl eq_refl)
      as [Hc Hnull].
    split; [exact Hc|]. apply Hnull. clear. vm_compute. split; reflexivity.
  - destruct (calories_rounding_and_complete_records
                (edamam_reply pizza_nutrients) pizza_nutrients eq_refl eq_refl)
      as (_ & _ & Hrecord & _).
    assert (Hc : calories_of pizza_nutrients = Ret 266)
      by (vm_compute; reflexivity).
    assert (Hread : forallb (fun p : string * string => readable pizza_nutrients p.2)
                      nutrient_fields = true) by (vm_compute; reflexivity).
    destruct (Hrecord 266 Hc ltac:(discriminate) Hread)
      as (n & per100g & Hn & Hrun & Hsize & Hcal & Hlook & Hzero).
    exists per100g. split; [exact Hrun|]. split; [exact Hsize|].
    split; [exact Hcal|]. clear Hrun Hsize Hcal. split.
    + destruct (Hlook "protein" "PROCNT") as (x & Hx & ->).
      { apply (bool_decide_unpack _). vm_compute. reflexivity. }
      clear -Hx. revert Hx. vm_compute. by intros [= <-].
    + injection Hn as <-. apply (Hzero "vitaminK" "VITK1").
      * apply (bool_decide_unpack _). vm_compute. reflexivity.
      * vm_compute. reflexivity.
Defined.

(** The calories of the sample reply, and a field the reply lacks. *)
Example pizza_record_fields :
  ∃ per100g : gmap string json,
    pizza_record = JObj (<["nutritionPer100g" := JObj per100g]>
                         (<["allergens" := JArr []]> ∅))
    ∧ per100g !! "calories" = Some (JInt 266)
    ∧ per100g !! "protein" = Some (JFloat (FFin (114 # 10)))
    ∧ per100g !! "fat" = Some (JInt 10)
    ∧ per100g !! "vitaminK" = Some (JInt 0).
Proof. eexists. split; [by vm_compute|]. by vm_compute. Qed.

(** A negative quantity that does not truncate to 0 is kept. *)
Example negative_calories_are_kept :
  calories_of (JObj {[ "ENERC_KCAL" := quantity (JFloat (FFin (-5 # 1))) ]})
  = Ret (-5).
Proof. by vm_compute. Qed.

(** ** What any request may do to the cache and the file *)

Lemma analyze_effect cfg o rq w :
  (∃ r, fst (analyze cfg o rq w) = Ret r)
  ∧ (nutrition_db (snd (analyze cfg o rq w)) = nutrition_db w
     ∧ db_file (snd (analyze cfg o rq w)) = db_file w
     ∨ ∃ (m : gmap string json) l v,
         nutrition_db w = JObj m ∧ m !! l = None ∧ top_label rq = Some l
         ∧ fetch_result cfg o l = Ret v ∧ complete_record v = true
         ∧ nutrition_db (snd (analyze cfg o rq w)) = JObj (<[l := v]> m)
         ∧ db_file (snd (analyze cfg o rq w))
           = written o (JObj (<[l := v]> m)) (db_file w)).
Proof.
  destruct rq as [[[[|top rest]|e]|]];
    try (split; [by eexists|by left]).
  destruct (nutrition_db w) as [| | | |s|items|m] eqn:Hdb;
    try (unfold analyze; run_M; rewrite Hdb; simpl; split; [by eexists|by left]).
  - (* a string *)
    unfold analyze. run_M. rewrite Hdb. simpl.
    destruct (is_substring (label top) s); simpl.
    + rewrite Hdb. simpl. split; [by eexists|by left].
    + rewrite get_nutrition_data_from_api_run.
      destruct (fetch_result cfg o (label top)) as [v|]; simpl;
        [|split; [by eexists|by left]].
      destruct (truthy v) eqn:Ht; simpl.
      * rewrite Hdb. simpl. split; [by eexists|by left].
      * unfold respond. rewrite Ht. simpl. split; [by eexists|by left].
  - (* a list *)
    unfold analyze. run_M. rewrite Hdb. simpl.
    destruct (existsb (is_str (label top)) items); simpl.
    + rewrite Hdb. simpl. split; [by eexists|by left].
    + rewrite get_nutrition_data_from_api_run.
      destruct (fetch_result cfg o (label top)) as [v|]; simpl;
        [|split; [by eexists|by left]].
      destruct (truthy v) eqn:Ht; simpl.
      * rewrite Hdb. simpl. split; [by eexists|by left].
      * unfold respond. rewrite Ht. simpl. split; [by eexists|by left].
  - (* a dict *)
    change {| files_image := Some (Ret (top :: rest)) |} with (upload (top :: rest)).
    destruct (m !! label top) as [x|] eqn:Hx.
    + rewrite (analyze_hit _ _ _ _ _ _ _ Hdb Hx). split; [by eexists|by left].
    + rewrite (analyze_miss _ _ _ _ _ _ Hdb Hx).
      destruct (fetch_result cfg o (label top)) as [v|] eqn:Hv;
        [|split; [by eexists|by left]].
      destruct (truthy v) eqn:Ht; [|split; [by eexists|by left]].
      split; [by eexists|]. right. exists m, (label top), v.
      destruct (fetch_result_cases _ _ _ _ Hv) as [->|Hc]; [done|].
      by repeat split.
Qed.

Lemma serve_cons cfg o rq rs w :
  snd (serve cfg ((o, rq) :: rs) w) = snd (serve cfg rs (snd (analyze cfg o rq w))).
Proof.
  destruct (analyze_effect cfg o rq w) as [[r Hr] _].
  simpl. cbv [mbind M_bind mret M_ret].
  destruct (analyze cfg o rq w) as [r' w1]. simpl in *. subst r'.
  by destruct (serve cfg rs w1) as [[|] w2].
Qed.

Lemma fetched_later cfg x rs k v : fetched cfg rs k v → fetched cfg (x :: rs) k v.
Proof.
  intros (o & rq & Hin & H). exists o, rq. split; [by apply list_elem_of_further|done].
Qed.

Lemma serve_keys cfg rs w (m : gmap string json) :
  nutrition_db (snd (serve cfg rs w)) = JObj m →
  ∃ m0 : gmap string json,
    nutrition_db w = JObj m0
    ∧ ∀ k v, m !! k = Some v →
        m0 !! k = Some v ∨ fetched cfg rs k v ∧ complete_record v = true.
Proof.
  revert w. induction rs as [|[o rq] rs IH]; intros w Hm.
  - exists m. split; [done|]. by left.
  - rewrite serve_cons in Hm. destruct (IH _ Hm) as (m1 & Hdb1 & Hkeys).
    destruct (analyze_effect cfg o rq w)
      as [_ [[Hsame _]|(m0 & l & v0 & Hdb & Hmiss & Htop & Hv & Hc & Hdb' & _)]].
    + exists m1. split; [congruence|]. intros k v Hk.
      destruct (Hkeys k v Hk) as [|[Hf Hcv]]; [by left|right].
      split; [by apply fetched_later|done].
    + exists m0. split; [done|]. intros k v Hk.
      rewrite Hdb' in Hdb1. injection Hdb1 as <-.
      destruct (Hkeys k v Hk) as [Hin|[Hf Hcv]].
      * destruct (decide (l = k)) as [->|Hne].
        -- rewrite lookup_insert_eq in Hin. injection Hin as <-. right.
           split; [|done]. exists o, rq.
           split; [apply list_elem_of_here|].
           repeat split; try done. by apply complete_record_not_null.
        -- rewrite lookup_insert_ne in Hin by done. by left.
      * right. split; [by apply fetched_later|done].
Qed.

Lemma cache_ok_insert (m : gmap string json) l v :
  cache_ok (JObj m) → complete_record v = true → cache_ok (JObj (<[l := v]> m)).
Proof.
  intros (m' & [= <-] & Hall) Hc. exists (<[l := v]> m). split; [done|].
  intros k x. destruct (decide (l = k)) as [->|Hne].
  - rewrite lookup_insert_eq. by intros [= <-].
  - rewrite lookup_insert_ne by done. apply Hall.
Qed.

Lemma serve_file_ok cfg rs w :
  cache_ok (nutrition_db w) → file_ok (db_file w) →
  cache_ok (nutrition_db (snd (serve cfg rs w)))
  ∧ file_ok (db_file (snd (serve cfg rs w))).
Proof.
  revert w. induction rs as [|[o rq] rs IH]; intros w Hc Hf; [done|].
  rewrite serve_cons. apply IH.
  - destruct (analyze_effect cfg o rq w)
      as [_ [[-> _]|(m0 & l & v0 & Hdb & _ & _ & _ & Hcv & -> & _)]]; [done|].
    rewrite Hdb in Hc. by apply cache_ok_insert.
  - destruct (analyze_effect cfg o rq w)
      as [_ [[_ ->]|(m0 & l & v0 & Hdb & _ & _ & _ & Hcv & _ & ->)]]; [done|].
    unfold written. destruct (disk o); [|done..].
    rewrite Hdb in Hc. by apply cache_ok_insert.
Qed.

Lemma startup_loaded f w0 (m0 : gmap string json) k v :
  startup f = Running w0 →
  nutrition_db w0 = JObj m0 →
  m0 !! k = Some v →
  loaded f k v.
Proof.
  intros Hboot Hdb Hk. destruct f as [| | |x]; simpl in Hboot.
  - injection Hboot as <-. injection Hdb as <-. by rewrite lookup_empty in Hk.
  - injection Hboot as <-. injection Hdb as <-. by rewrite lookup_empty in Hk.
  - done.
  - destruct (py_len x); [|done]. injection Hboot as <-. simpl in Hdb.
    subst x. by exists m0.
Qed.

Lemma startup_ok f w0 :
  startup f = Running w0 → file_ok f →
  cache_ok (nutrition_db w0) ∧ file_ok (db_file w0).
Proof.
  intros Hboot Hf. destruct f as [| | |x]; simpl in Hboot.
  - injection Hboot as <-. split; [|done]. exists ∅. split; [done|].
    intros k v. by rewrite lookup_empty.
  - injection Hboot as <-. split; [|done]. exists ∅. split; [done|].
    intros k v. by rewrite lookup_empty.
  - done.
  - destruct (py_len x); [|done]. by injection Hboot as <-.
Qed.

(** C6. At any point of a run, a key of the cache either came with the file
    read at start-up, with the value it has there, or was inserted after a
    lookup that returned a record, and that record is complete.  When the
    file was fine at start-up (absent, unusable, or a dict of complete
    records), every value of the cache is a complete record, never [None],
    and the file stays fine. *)
Theorem cache_keys_are_loaded_or_fetched cfg f w0 rs (m : gmap string json) :
  startup f = Running w0 →
  nutrition_db (snd (serve cfg rs w0)) = JObj m →
  (∀ k v, m !! k = Some v →
     loaded f k v ∨ fetched cfg rs k v ∧ complete_record v = true)
  ∧ (file_ok f →
     (∀ k v, m !! k = Some v → complete_record v = true ∧ v ≠ JNull)
     ∧ file_ok (db_file (snd (serve cfg rs w0)))).
Proof.
  intros Hboot Hm. destruct (serve_keys _ _ _ _ Hm) as (m0 & Hdb0 & Hkeys).
  split.
  - intros k v Hk. destruct (Hkeys k v Hk) as [Hin|]; [left|by right].
    by eapply startup_loaded.
  - intros Hf. destruct (startup_ok _ _ Hboot Hf) as [Hc0 Hf0].
    destruct (serve_file_ok cfg rs w0 Hc0 Hf0) as [(m' & Hm' & Hall) Hfile].
    split; [|done]. intros k v Hk. rewrite Hm in Hm'. injection Hm' as <-.
    pose proof (Hall k v Hk) as Hc. split; [done|].
    by apply complete_record_not_null.
Qed.

Lemma cache_keys_are_loaded_or_fetched_witness :
  let rs := [(replies (edamam_reply pizza_nutrients), upload [pizza; pasta; salad]);
             (offline, upload [pasta; pizza; salad]);
             (offline, upload [pizza; salad; pasta])] in
  (∀ k v, ({[ "Pizza" := pizza_record ]} : gmap string json) !! k = Some v →
     loaded NotFound k v ∨ fetched credentials rs k v ∧ complete_record v = true)
  ∧ (file_ok NotFound →
     (∀ k v, ({[ "Pizza" := pizza_record ]} : gmap string json) !! k = Some v →
        complete_record v = true ∧ v ≠ JNull)
     ∧ file_ok (db_file (snd (serve credentials rs fresh)))).
Proof.
  intros rs.
  assert (Hdb : nutrition_db (snd (serve credentials rs fresh))
                = JObj {[ "Pizza" := pizza_record ]}) by (by vm_compute).
  exact (cache_keys_are_loaded_or_fetched credentials NotFound fresh rs
           {[ "Pizza" := pizza_record ]} eq_refl Hdb).
Defined.

(** ** Two handlers at once *)

Lemma ins_commute b1 b2 la ra lb rb (m : gmap string json) :
  la ≠ lb →
  ins b1 la ra (ins b2 lb rb m) = ins b2 lb rb (ins b1 la ra m).
Proof. intros Hne. destruct b1, b2; simpl; try done. by apply insert_insert_ne. Qed.

Lemma lookup_ins_ne b la lb rb (m : gmap string json) :
  la ≠ lb → ins b lb rb m !! la = m !! la.
Proof. intros Hne. destruct b; simpl; [|done]. by rewrite lookup_insert_ne. Qed.

Lemma consistent_swap m oa ob la ra lb rb ta tb s :
  la ≠ lb →
  consistent m oa ob la ra lb rb ta tb s →
  consistent m ob oa lb rb la ra tb ta s.
Proof.
  intros Hne [Hheld Hexcl Hcache Hfile]. constructor.
  - by rewrite orb_comm.
  - by rewrite andb_comm.
  - by rewrite ins_commute.
  - intros Hb Ha Hw. rewrite ins_commute by done. apply Hfile; try done.
    by rewrite orb_comm.
Qed.

Ltac stages tb :=
  destruct (stage_of tb) as [|[|[|[|?]]]]; simpl in *; try done.

(** A step of a handler on the path keeps it on the path and keeps the
    shared state consistent, whatever the other handler is doing. *)
Lemma thread_step_consistent cfg m oa ob top rest ra lb rb ta tb s ta' s' :
  label top ≠ lb →
  m !! label top = None →
  fetch_result cfg oa (label top) = Ret ra →
  truthy ra = true →
  on_path (top :: rest) (label top) ra ta →
  consistent m oa ob (label top) ra lb rb ta tb s →
  thread_step cfg oa ta s = Some (ta', s') →
  on_path (top :: rest) (label top) ra ta'
  ∧ consistent m oa ob (label top) ra lb rb ta' tb s'.
Proof.
  intros Hne Hmiss Hfetch Htruthy Hpath [Hheld Hexcl Hcache Hfile] Hstep.
  unfold on_path in Hpath.
  destruct Hpath as [->|[->|[->|[->|[->|[->|[->|[->| ->]]]]]]]]; simpl in Hstep.
  - (* classification *)
    injection Hstep as <- <-. split; [unfold on_path; naive_solver|].
    by constructor.
  - (* the membership test *)
    rewrite Hcache in Hstep. simpl in Hstep.
    rewrite lookup_ins_ne, Hmiss in Hstep by done.
    rewrite bool_decide_false in Hstep by (by intros [? ?]).
    injection Hstep as <- <-. split; [unfold on_path; naive_solver|].
    by constructor.
  - (* the provider call *)
    rewrite get_nutrition_data_from_api_run, Hfetch, Htruthy in Hstep.
    injection Hstep as <- <-. split; [unfold on_path; naive_solver|].
    by constructor.
  - (* entering [with db_lock] *)
    destruct (db_lock s) eqn:Hlock; [done|].
    injection Hstep as <- <-. split; [unfold on_path; naive_solver|].
    simpl in *. constructor; simpl; try done.
  - (* the assignment *)
    rewrite Hcache in Hstep. simpl in Hstep.
    injection Hstep as <- <-. split; [unfold on_path; naive_solver|].
    by constructor.
  - (* the file write *)
    injection Hstep as <- <-. split; [unfold on_path; naive_solver|].
    constructor; simpl in *; try done.
    intros Ha Hb _. rewrite Ha, Hcache. stages tb.
  - (* leaving [with db_lock] *)
    injection Hstep as <- <-. split; [unfold on_path; naive_solver|].
    constructor; simpl in *; try done.
  - (* the response *)
    injection Hstep as <- <-. split; [unfold on_path; naive_solver|].
    by constructor.
  - done.
Qed.

Section TwoMisses.
Variables (cfg : config) (o1 o2 : oracle) (m : gmap string json).
Variables (top1 top2 : prediction) (rest1 rest2 : list prediction).
Variables (r1 r2 : json).
Hypothesis different : label top1 ≠ label top2.
Hypothesis miss1 : m !! label top1 = None.
Hypothesis miss2 : m !! label top2 = None.
Hypothesis fetch1 : fetch_result cfg o1 (label top1) = Ret r1.
Hypothesis fetch2 : fetch_result cfg o2 (label top2) = Ret r2.
Hypothesis found1 : r1 ≠ JNull.
Hypothesis found2 : r2 ≠ JNull.

Let inv : state → Prop :=
  both_on_path m o1 o2 (top1 :: rest1) (label top1) r1
    (top2 :: rest2) (label top2) r2.

Lemma fetched_truthy cfg' o l r :
  fetch_result cfg' o l = Ret r → r ≠ JNull → truthy r = true.
Proof.
  intros Hf Hr. destruct (fetch_result_cases _ _ _ _ Hf) as [|Hc]; [done|].
  by apply complete_record_truthy.
Qed.

Lemma step_inv pick st : inv st → inv (step cfg o1 o2 pick st).
Proof.
  intros (Hp1 & Hp2 & Hc). unfold step. destruct pick.
  - destruct (thread_step cfg o1 (thread1 st) (sys st)) as [[t s]|] eqn:Hstep;
      [|done].
    destruct (thread_step_consistent _ _ _ _ _ _ _ _ _ _ _ _ _ _
                different miss1 fetch1 (fetched_truthy _ _ _ _ fetch1 found1)
                Hp1 Hc Hstep) as [Hp1' Hc'].
    exact (conj Hp1' (conj Hp2 Hc')).
  - destruct (thread_step cfg o2 (thread2 st) (sys st)) as [[t s]|] eqn:Hstep;
      [|done].
    apply (consistent_swap _ _ _ _ _ _ _ _ _ _ different) in Hc.
    destruct (thread_step_consistent _ _ _ _ _ _ _ _ _ _ _ _ _ _
                (not_eq_sym different) miss2 fetch2
                (fetched_truthy _ _ _ _ fetch2 found2)
                Hp2 Hc Hstep) as [Hp2' Hc'].
    apply (consistent_swap _ _ _ _ _ _ _ _ _ _ (not_eq_sym different)) in Hc'.
    exact (conj Hp1 (conj Hp2' Hc')).
Qed.

Lemma run_inv schedule st : inv st → inv (run cfg o1 o2 schedule st).
Proof.
  revert st. induction schedule as [|pick schedule IH]; intros st Hinv; [done|].
  simpl. apply IH. by apply step_inv.
Qed.

Lemma start_inv w :
  nutrition_db w = JObj m →
  inv (concurrent (upload (top1 :: rest1)) (upload (top2 :: rest2)) w).
Proof.
  intros Hdb. split; [|split]; [unfold on_path; naive_solver..|].
  by constructor.
Qed.

Lemma on_path_answered ps l r t :
  on_path ps l r t → is_Some (answered t) →
  t = TDone (respond_or_500 ps r).
Proof.
  unfold on_path. intros H [x Hx].
  destruct H as [->|[->|[->|[->|[->|[->|[->|[->| ->]]]]]]]]; done.
Qed.

Lemma inv_answered st :
  inv st →
  is_Some (answered (thread1 st)) →
  is_Some (answered (thread2 st)) →
  answered (thread1 st) = Some (respond_or_500 (top1 :: rest1) r1)
  ∧ answered (thread2 st) = Some (respond_or_500 (top2 :: rest2) r2)
  ∧ nutrition_db (shared (sys st))
    = JObj (<[label top1 := r1]> (<[label top2 := r2]> m))
  ∧ db_lock (sys st) = false
  ∧ (disk o1 = WriteOk → disk o2 = WriteOk →
     db_file (shared (sys st)) = Snapshot (nutrition_db (shared (sys st)))).
Proof.
  intros (Hp1 & Hp2 & [Hheld Hexcl Hcache Hfile]) Hd1 Hd2.
  rewrite (on_path_answered _ _ _ _ Hp1 Hd1) in *.
  rewrite (on_path_answered _ _ _ _ Hp2 Hd2) in *.
  simpl in *. repeat split; try done.
  intros Ha Hb. rewrite Hcache. by apply Hfile.
Qed.

(** At no point of any interleaving are both handlers inside
    [with db_lock]. *)
Lemma mutual_exclusion schedule w :
  nutrition_db w = JObj m →
  let st := run cfg o1 o2 schedule
              (concurrent (upload (top1 :: rest1)) (upload (top2 :: rest2)) w) in
  holding (stage_of (thread1 st)) && holding (stage_of (thread2 st)) = false.
Proof.
  intros Hdb st.
  destruct (run_inv schedule _ (start_inv w Hdb)) as (_ & _ & [_ Hexcl _ _]).
  exact Hexcl.
Qed.
End TwoMisses.

(** X18. The step machine and the handler agree: a thread that runs alone
    through its steps, at most eight, ends with the response [analyze]
    returns, in the state [analyze] returns, and with the lock free. *)
Lemma solo_is_analyze cfg o rq w :
  solo cfg o 8 (TStart rq) {| shared := w; db_lock := false |}
  = (match fst (analyze cfg o rq w) with
     | Ret r => TDone r
     | Raise _ => TDone server_error
     end,
     {| shared := snd (analyze cfg o rq w); db_lock := false |}).
Proof.
  destruct rq as [[[[|top rest]|e]|]]; try done.
  unfold analyze. run_M. unfold classify. cbv [mbind res_bind predict_image]. simpl.
  destruct (contains (label top) (nutrition_db w)) as [[|]|] eqn:Hin; simpl;
    rewrite ?Hin; simpl; [| |done].
  - destruct (getitem (nutrition_db w) (label top)) as [v|]; simpl; [|done].
    unfold respond_or_500. by destruct (respond (top :: rest) v).
  - rewrite get_nutrition_data_from_api_run. simpl.
    destruct (fetch_result cfg o (label top)) as [v|]; simpl; [|done].
    destruct (truthy v) eqn:Ht; simpl.
    + destruct (setitem (nutrition_db w) (label top) v) as [db'|]; simpl; [|done].
      unfold respond_or_500. by destruct (respond (top :: rest) v).
    + unfold respond_or_500, respond. by rewrite Ht.
Qed.


(** ** The handler, whatever the request and the cache *)

Lemma respond_or_500_cases predictions v :
  respond_or_500 predictions v = server_error
  ∨ ∃ per100g allergens,
      respond_or_500 predictions v = Analysis predictions per100g allergens.
Proof.
  unfold respond_or_500, respond. cbv [mbind res_bind].
  destruct (truthy v); [|right; by eauto].
  destruct (dict_get v "nutritionPer100g" JNull); [|by left].
  destruct (dict_get v "allergens" JNull); [|by left].
  right. by eauto.
Qed.

(** [analyze] on an upload with at least one prediction, in closed form. *)
Lemma analyze_upload cfg o top rest w :
  analyze cfg o (upload (top :: rest)) w
  = match contains (label top) (nutrition_db w) with
    | Raise _ => (Ret server_error, w)
    | Ret true =>
        (Ret match getitem (nutrition_db w) (label top) with
             | Ret v => respond_or_500 (top :: rest) v
             | Raise _ => server_error
             end, w)
    | Ret false =>
        match fetch_result cfg o (label top) with
        | Raise _ => (Ret server_error, add_trace (fetch_events cfg (label top)) w)
        | Ret v =>
            if truthy v then
              match setitem (nutrition_db w) (label top) v with
              | Ret db' =>
                  (Ret (respond_or_500 (top :: rest) v),
                   {| nutrition_db := db';
                      db_file := written o db' (db_file w);
                      trace := trace w ++ fetch_events cfg (label top) |})
              | Raise _ =>
                  (Ret server_error, add_trace (fetch_events cfg (label top)) w)
              end
            else
              (Ret (Analysis (top :: rest) JNull (JArr [])),
               add_trace (fetch_events cfg (label top)) w)
        end
    end.
Proof.
  unfold analyze. run_M.
  destruct (contains (label top) (nutrition_db w)) as [[|]|] eqn:Hin; simpl;
    [| |done].
  - destruct (getitem (nutrition_db w) (label top)) as [v|]; simpl; [|done].
    unfold respond_or_500. by destruct (respond (top :: rest) v).
  - rewrite get_nutrition_data_from_api_run. simpl.
    destruct (fetch_result cfg o (label top)) as [v|]; simpl; [|done].
    destruct (truthy v) eqn:Ht; simpl.
    + destruct (setitem (nutrition_db w) (label top) v) as [db'|]; simpl; [|done].
      unfold respond_or_500, written. by destruct (respond (top :: rest) v).
    + unfold respond. by rewrite Ht.
Qed.

Lemma analyze_without_top_label cfg o rq w :
  top_label rq = None →
  analyze cfg o rq w
  = (Ret (match files_image rq with
          | None => Error 400 "No image file provided"
          | Some _ => server_error
          end), w).
Proof. by destruct rq as [[[[|top rest]|e]|]]. Qed.

(** X1. Whatever is uploaded, whatever the cache holds and whatever the
    provider and the disk do, [analyze] raises nothing: it answers.  The
    answer is the 400 error exactly when the request carries no image;
    otherwise it is the generic 500 error or an analysis that lists the
    classifier's predictions as they came. *)
Theorem analyze_always_answers cfg o rq w :
  ∃ r, fst (analyze cfg o rq w) = Ret r
       ∧ match files_image rq with
         | None => r = Error 400 "No image file provided"
         | Some file =>
             r = server_error
             ∨ ∃ predictions per100g allergens,
                 file = Ret predictions
                 ∧ r = Analysis predictions per100g allergens
         end.
Proof.
  destruct rq as [[[[|top rest]|e]|]];
    try (eexists; split; [done|]; simpl; by eauto).
  change {| files_image := Some (Ret (top :: rest)) |} with (upload (top :: rest)).
  rewrite analyze_upload. simpl.
  destruct (contains (label top) (nutrition_db w)) as [[|]|];
    [| |eexists; split; [done|by left]].
  - eexists. split; [done|].
    destruct (getitem (nutrition_db w) (label top)) as [v|]; [|by left].
    destruct (respond_or_500_cases (top :: rest) v) as [->|(per & al & ->)];
      [by left|right; by eauto].
  - destruct (fetch_result cfg o (label top)) as [v|];
      [|eexists; split; [done|by left]].
    destruct (truthy v).
    + destruct (setitem (nutrition_db w) (label top) v) as [db'|];
        [|eexists; split; [done|by left]].
      eexists. split; [done|].
      destruct (respond_or_500_cases (top :: rest) v) as [->|(per & al & ->)];
        [by left|right; by eauto].
    + eexists. split; [done|]. right. by eauto.
Qed.

(** X2. A request without an image, with an image the classifier fails on,
    or with no prediction at all is turned away (400 in the first case, 500
    in the others) before the cache is looked at: the state is returned as
    it was, and the provider is not called. *)
Theorem rejected_request_changes_nothing cfg o rq w :
  top_label rq = None →
  snd (analyze cfg o rq w) = w
  ∧ fst (analyze cfg o rq w)
    = Ret (if bool_decide (files_image rq = None)
           then Error 400 "No image file provided"
           else server_error).
Proof.
  intros Htop. rewrite (analyze_without_top_label _ _ _ _ Htop).
  split; [done|]. by destruct (files_image rq).
Qed.

Lemma rejected_request_changes_nothing_witness :
  snd (analyze credentials offline {| files_image := Some (Raise ClassifierError) |}
         with_pizza) = with_pizza
  ∧ fst (analyze credentials offline {| files_image := Some (Raise ClassifierError) |}
           with_pizza) = Ret server_error.
Proof.
  exact (rejected_request_changes_nothing credentials offline
           {| files_image := Some (Raise ClassifierError) |} with_pizza eq_refl).
Defined.

(** X3. When the reply of the provider has a shape the lookup does not
    expect, so that it raises (anything but the [KeyError] and [IndexError]
    it catches), the request ends with the generic 500 error; the provider
    was called, but neither the cache nor the file changes. *)
Theorem malformed_reply_is_a_server_error cfg o w (m : gmap string json) top rest e :
  nutrition_db w = JObj m →
  m !! label top = None →
  fetch_result cfg o (label top) = Raise e →
  analyze cfg o (upload (top :: rest)) w
  = (Ret server_error, add_trace (fetch_events cfg (label top)) w).
Proof.
  intros Hdb Hmiss Hraise.
  by rewrite (analyze_miss _ _ _ _ _ _ Hdb Hmiss), Hraise.
Qed.

Lemma malformed_reply_is_a_server_error_witness :
  analyze credentials (replies (JArr [])) (upload [pizza; pasta; salad]) fresh
  = (Ret server_error,
     add_trace [EvProvider "Pizza"; EvPost (api_request credentials "Pizza")] fresh).
Proof.
  exact (malformed_reply_is_a_server_error credentials (replies (JArr [])) fresh ∅
           pizza [pasta; salad] TypeError eq_refl eq_refl eq_refl).
Defined.

(** X4. The zero test on the calories comes before the other nutrients are
    read.  When one of them cannot be read (its quantity is not a number,
    say), a reply with zero calories is still answered with [None], while a
    reply with other calories raises. *)
Theorem zero_calories_are_tested_first data nutrients c e :
  parsed_nutrients data = Ret nutrients →
  truthy nutrients = true →
  calories_of nutrients = Ret c →
  get_nutrients nutrients nutrient_fields = Raise e →
  format_response data = if c =? 0 then Ret JNull else Raise e.
Proof.
  intros Hp Ht Hc Hrest. unfold format_response. rewrite Hp, Ht. simpl negb.
  cbv iota. cbv [mbind res_bind]. rewrite Hc.
  destruct (c =? 0); [done|]. by rewrite Hrest.
Qed.

Lemma zero_calories_are_tested_first_witness :
  format_response (edamam_reply (odd_nutrients 0)) = Ret JNull
  ∧ format_response (edamam_reply (odd_nutrients 52)) = Raise TypeError.
Proof.
  split.
  - exact (zero_calories_are_tested_first (edamam_reply (odd_nutrients 0))
             (odd_nutrients 0) 0 TypeError eq_refl eq_refl eq_refl eq_refl).
  - exact (zero_calories_are_tested_first (edamam_reply (odd_nutrients 52))
             (odd_nutrients 52) 52 TypeError eq_refl eq_refl eq_refl eq_refl).
Defined.

(** ** The cache and the file over a run *)



(** X6. The cache and the file change in one way only.  A request that
    leaves either of them different from what it found has missed on its
    top label, got a complete record for it, and added just that entry;
    the file then is what the write made of it.  Hits, failed lookups and
    rejected requests never open the file. *)
Theorem only_a_new_entry_changes_cache_or_file cfg o rq w :
  nutrition_db (snd (analyze cfg o rq w)) ≠ nutrition_db w
  ∨ db_file (snd (analyze cfg o rq w)) ≠ db_file w →
  ∃ (m : gmap string json) l v,
    nutrition_db w = JObj m ∧ m !! l = None ∧ top_label rq = Some l
    ∧ fetch_result cfg o l = Ret v ∧ complete_record v = true
    ∧ nutrition_db (snd (analyze cfg o rq w)) = JObj (<[l := v]> m)
    ∧ db_file (snd (analyze cfg o rq w))
      = match disk o with
        | WriteOk => Snapshot (JObj (<[l := v]> m))
        | OpenFails => db_file w
        | DumpFails => NotJson
        end.
Proof.
  intros Hchanged.
  destruct (analyze_effect cfg o rq w) as [_ [[Hdb Hfile]|H]]; [|exact H].
  destruct Hchanged as [Hne|Hne]; by destruct Hne.
Qed.

Lemma only_a_new_entry_changes_cache_or_file_witness :
  ∃ (m : gmap string json) l v,
    nutrition_db fresh = JObj m ∧ m !! l = None
    ∧ top_label (upload [pizza; pasta; salad]) = Some l
    ∧ fetch_result credentials (replies (edamam_reply pizza_nutrients)) l = Ret v
    ∧ complete_record v = true
    ∧ nutrition_db (snd (analyze credentials (replies (edamam_reply pizza_nutrients))
                           (upload [pizza; pasta; salad]) fresh))
      = JObj (<[l := v]> m)
    ∧ db_file (snd (analyze credentials (replies (edamam_reply pizza_nutrients))
                      (upload [pizza; pasta; salad]) fresh))
      = Snapshot (JObj (<[l := v]> m)).
Proof.
  apply (only_a_new_entry_changes_cache_or_file credentials
           (replies (edamam_reply pizza_nutrients))
           (upload [pizza; pasta; salad]) fresh).
  right. vm_compute. discriminate.
Defined.

Lemma fetch_result_with_disk cfg d o food_name :
  fetch_result cfg (with_disk d o) food_name = fetch_result cfg o food_name.
Proof. done. Qed.

(** X7. The outcome of the file write stays on the server.  Whether the
    write succeeds, cannot open the file or breaks off half way, the client
    gets the same response, the cache holds the same entries and the same
    calls are made; only the file differs. *)
Theorem write_outcome_stays_on_the_server cfg d o rq w :
  fst (analyze cfg (with_disk d o) rq w) = fst (analyze cfg o rq w)
  ∧ nutrition_db (snd (analyze cfg (with_disk d o) rq w))
    = nutrition_db (snd (analyze cfg o rq w))
  ∧ trace (snd (analyze cfg (with_disk d o) rq w))
    = trace (snd (analyze cfg o rq w)).
Proof.
  destruct rq as [[[[|top rest]|e]|]]; try done.
  change {| files_image := Some (Ret (top :: rest)) |} with (upload (top :: rest)).
  rewrite !analyze_upload, fetch_result_with_disk.
  destruct (contains (label top) (nutrition_db w)) as [[|]|]; try done.
  destruct (fetch_result cfg o (label top)) as [v|]; try done.
  destruct (truthy v); try done.
  by destruct (setitem (nutrition_db w) (label top) v).
Qed.

(** X8. What a restart finds after a request that cached a new record.  If
    the write succeeded, the process comes up with the whole cache as it
    was, the new record included.  If the file could not be opened, it
    comes up as it would have before the request.  If the write broke off
    after the file was opened, the file is no JSON document any more and
    the process comes up with an empty cache: the earlier entries are lost
    as well. *)
Theorem restart_after_write cfg o w (m : gmap string json) top rest record :
  nutrition_db w = JObj m →
  m !! label top = None →
  fetch_result cfg o (label top) = Ret record →
  record ≠ JNull →
  let w' := snd (analyze cfg o (upload (top :: rest)) w) in
  startup (db_file w')
  = match disk o with
    | WriteOk =>
        Running {| nutrition_db := JObj (<[label top := record]> m);
                   db_file := Snapshot (JObj (<[label top := record]> m));
                   trace := [] |}
    | OpenFails => startup (db_file w)
    | DumpFails =>
        Running {| nutrition_db := JObj ∅; db_file := NotJson; trace := [] |}
    end.
Proof.
  intros Hdb Hmiss Hfetch Hrec w'. subst w'.
  destruct (fetch_result_cases _ _ _ _ Hfetch) as [|Hc]; [done|].
  rewrite (analyze_miss _ _ _ _ _ _ Hdb Hmiss), Hfetch,
    (complete_record_truthy _ Hc). simpl. unfold written.
  by destruct (disk o).
Qed.

Lemma restart_after_write_witness :
  startup (db_file (snd (analyze credentials
                           (with_disk DumpFails (replies (edamam_reply pasta_nutrients)))
                           (upload [pasta; pizza; salad]) with_pizza)))
  = Running {| nutrition_db := JObj ∅; db_file := NotJson; trace := [] |}.
Proof.
  assert (Hfetch : fetch_result credentials
                     (with_disk DumpFails (replies (edamam_reply pasta_nutrients)))
                     (label pasta) = Ret pasta_record) by (vm_compute; reflexivity).
  assert (Hrec : pasta_record ≠ JNull) by (vm_compute; discriminate).
  exact (restart_after_write credentials
           (with_disk DumpFails (replies (edamam_reply pasta_nutrients)))
           with_pizza {[ "Pizza" := pizza_record ]} pasta [pizza; salad]
           pasta_record eq_refl eq_refl Hfetch Hrec).
Defined.

(** X9. As long as every write succeeds, the file and the cache stay in
    step: if the file holds the cache before a run of requests, it holds the
    cache after it. *)
Theorem file_follows_cache cfg rs w :
  db_file w = Snapshot (nutrition_db w) →
  Forall (fun x : oracle * request => disk x.1 = WriteOk) rs →
  db_file (snd (serve cfg rs w)) = Snapshot (nutrition_db (snd (serve cfg rs w))).
Proof.
  intros Hsync Hall. revert w Hsync.
  induction Hall as [|[o rq] rs Hok _ IH]; intros w Hsync; [done|].
  rewrite serve_cons. apply IH. simpl in Hok.
  destruct (analyze_effect cfg o rq w)
    as [_ [[-> ->]|(m0 & l & v0 & _ & _ & _ & _ & _ & -> & ->)]]; [done|].
  unfold written. by rewrite Hok.
Qed.

Lemma file_follows_cache_witness :
  let rs := [(replies (edamam_reply pasta_nutrients), upload [pasta; pizza]);
             (offline, upload [salad]);
             (replies (edamam_reply pizza_nutrients), upload [pizza])] in
  db_file (snd (serve credentials rs with_pizza))
  = Snapshot (nutrition_db (snd (serve credentials rs with_pizza))).
Proof.
  intros rs.
  refine (file_follows_cache credentials rs with_pizza eq_refl _).
  repeat constructor.
Defined.

Lemma serve_keeps_what_is_no_dict cfg rs w :
  (∀ m : gmap string json, nutrition_db w ≠ JObj m) →
  nutrition_db (snd (serve cfg rs w)) = nutrition_db w
  ∧ db_file (snd (serve cfg rs w)) = db_file w.
Proof.
  revert w. induction rs as [|[o rq] rs IH]; intros w Hno; [done|].
  rewrite serve_cons.
  destruct (analyze_effect cfg o rq w)
    as [_ [[Hdb Hfile]|(m0 & l & v0 & Hdb0 & _)]]; [|by destruct (Hno m0)].
  destruct (IH (snd (analyze cfg o rq w))) as [-> ->]; [by rewrite Hdb|done].
Qed.

(** X10. A file that holds a JSON list is loaded without complaint (it has
    a length), but the process then has a list where its cache should be.
    Whatever is served afterwards, that list and the file stay as they are,
    nothing is ever cached, and every request whose lookup returns a record
    is answered with the 500 error. *)
Theorem list_snapshot_disables_the_cache cfg items :
  let w0 := {| nutrition_db := JArr items; db_file := Snapshot (JArr items);
               trace := [] |} in
  startup (Snapshot (JArr items)) = Running w0
  ∧ (∀ rs, nutrition_db (snd (serve cfg rs w0)) = JArr items
           ∧ db_file (snd (serve cfg rs w0)) = Snapshot (JArr items))
  ∧ (∀ o top rest record w,
       nutrition_db w = JArr items →
       fetch_result cfg o (label top) = Ret record →
       record ≠ JNull →
       fst (analyze cfg o (upload (top :: rest)) w) = Ret server_error).
Proof.
  intros w0. split; [done|]. split.
  - intros rs. by apply (serve_keeps_what_is_no_dict cfg rs w0).
  - intros o top rest record w Hdb Hfetch Hrec.
    rewrite analyze_upload, Hdb, Hfetch. simpl.
    destruct (existsb (is_str (label top)) items); [done|].
    by rewrite (fetched_truthy _ _ _ _ Hfetch Hrec).
Qed.

Lemma http_posts_app evs1 evs2 :
  http_posts (evs1 ++ evs2) = http_posts evs1 ++ http_posts evs2.
Proof. apply omap_app. Qed.

Lemma analyze_trace cfg o rq w :
  trace (snd (analyze cfg o rq w)) = trace w
  ∨ ∃ l, top_label rq = Some l
         ∧ trace (snd (analyze cfg o rq w)) = trace w ++ fetch_events cfg l.
Proof.
  destruct rq as [[[[|top rest]|e]|]]; try (by left).
  change {| files_image := Some (Ret (top :: rest)) |} with (upload (top :: rest)).
  rewrite analyze_upload.
  destruct (contains (label top) (nutrition_db w)) as [[|]|]; try (by left).
  right. exists (label top). split; [done|].
  destruct (fetch_result cfg o (label top)) as [v|]; [|done].
  destruct (truthy v); [|done].
  by destruct (setitem (nutrition_db w) (label top) v).
Qed.

(** X11. A request makes at most one provider call, and an HTTP request
    leaves only within such a call: over a run of [n] requests the lookup is
    invoked at most [n] times, all on top labels of the requests, and
    there are no more HTTP requests than invocations. *)
Theorem at_most_one_call_per_request cfg rs w :
  ∃ evs,
    trace (snd (serve cfg rs w)) = trace w ++ evs
    ∧ (length (provider_calls evs) ≤ length rs)%nat
    ∧ (length (http_posts evs) ≤ length (provider_calls evs))%nat
    ∧ ∀ l, l ∈ provider_calls evs → ∃ x, x ∈ rs ∧ top_label x.2 = Some l.
Proof.
  revert w. induction rs as [|[o rq] rs IH]; intros w.
  - exists []. rewrite app_nil_r. repeat split; try done.
    intros l Hl. by apply elem_of_nil in Hl.
  - rewrite serve_cons.
    destruct (IH (snd (analyze cfg o rq w))) as (evs & Htr & Hn & Hp & Hin).
    destruct (analyze_trace cfg o rq w) as [Hsame|(l & Htop & Hadd)].
    + exists evs. rewrite Htr, Hsame. repeat split; try done.
      * simpl. lia.
      * intros l Hl. destruct (Hin l Hl) as (x & Hx & Hxl).
        exists x. split; [by apply list_elem_of_further|done].
    + exists (fetch_events cfg l ++ evs). rewrite Htr, Hadd, <- app_assoc.
      rewrite provider_calls_app, http_posts_app, provider_calls_fetch_events.
      repeat split; try done.
      * simpl. lia.
      * rewrite length_app. unfold fetch_events.
        destruct (placeholder_credentials cfg); simpl; lia.
      * intros l' Hl'. apply elem_of_cons in Hl' as [->|Hl'].
        -- exists (o, rq). split; [apply list_elem_of_here|done].
        -- destruct (Hin l' Hl') as (x & Hx & Hxl).
           exists x. split; [by apply list_elem_of_further|done].
Qed.

(** X12. On a hit the value under the label is served as it is, whatever
    it is, and the provider is not asked.  A value that counts as false (a
    [null] in a hand-edited file, an empty dict) gives the response of a
    failed lookup, for good; a dict gives its two fields, [null] for one
    that is missing; anything else that counts as true has no [get], and
    the request ends with the 500 error. *)
Theorem hit_serves_whatever_is_stored cfg o w (m : gmap string json) top rest v :
  nutrition_db w = JObj m →
  m !! label top = Some v →
  analyze cfg o (upload (top :: rest)) w
  = (Ret (if truthy v then
            match v with
            | JObj r =>
                Analysis (top :: rest) (default JNull (r !! "nutritionPer100g"))
                  (default JNull (r !! "allergens"))
            | _ => server_error
            end
          else Analysis (top :: rest) JNull (JArr [])),
     w).
Proof.
  intros Hdb Hv. rewrite (analyze_hit _ _ _ _ _ _ _ Hdb Hv). do 2 f_equal.
  unfold respond_or_500, respond. cbv [mbind res_bind].
  destruct (truthy v); [|done]. by destruct v.
Qed.

Lemma hit_serves_whatever_is_stored_witness :
  analyze credentials (replies (edamam_reply pizza_nutrients)) (upload [pizza])
    {| nutrition_db := JObj {[ "Pizza" := JNull ]}; db_file := NotFound; trace := [] |}
  = (Ret (Analysis [pizza] JNull (JArr [])),
     {| nutrition_db := JObj {[ "Pizza" := JNull ]}; db_file := NotFound; trace := [] |}).
Proof.
  exact (hit_serves_whatever_is_stored credentials
           (replies (edamam_reply pizza_nutrients))
           {| nutrition_db := JObj {[ "Pizza" := JNull ]}; db_file := NotFound;
              trace := [] |}
           {[ "Pizza" := JNull ]} pizza [] JNull eq_refl eq_refl).
Defined.

(** X13. With a credential left at its placeholder, a miss is answered
    without nutrition and without any HTTP request: the lookup is entered
    and returns at once, and nothing is cached. *)
Theorem placeholder_credentials_answer_without_nutrition
    cfg o w (m : gmap string json) top rest :
  nutrition_db w = JObj m →
  m !! label top = None →
  APP_ID cfg = Some "EDAMAM_APP_ID" ∨ APP_KEY cfg = Some "EDAMAM_APP_KEY" →
  analyze cfg o (upload (top :: rest)) w
  = (Ret (Analysis (top :: rest) JNull (JArr [])),
     add_trace [EvProvider (label top)] w).
Proof.
  intros Hdb Hmiss Hph.
  pose proof (placeholder_credentials_skip cfg o (label top) w Hph) as Hskip.
  rewrite get_nutrition_data_from_api_run in Hskip.
  injection Hskip as Hres Hev.
  rewrite (analyze_miss _ _ _ _ _ _ Hdb Hmiss), Hres. simpl.
  unfold add_trace. by rewrite Hev.
Qed.

Lemma placeholder_credentials_answer_without_nutrition_witness :
  analyze placeholders (replies (edamam_reply pizza_nutrients))
    (upload [pizza; pasta; salad]) fresh
  = (Ret (Analysis [pizza; pasta; salad] JNull (JArr [])),
     add_trace [EvProvider "Pizza"] fresh).
Proof.
  exact (placeholder_credentials_answer_without_nutrition placeholders
           (replies (edamam_reply pizza_nutrients)) fresh ∅ pizza [pasta; salad]
           eq_refl eq_refl (or_introl eq_refl)).
Defined.

(** ** Rounding *)

Lemma round_half_even_bounds (n : Z) (d : positive) :
  let t := round_half_even (n # d) in
  (2 * t - 1) * Zpos d <= 2 * n <= (2 * t + 1) * Zpos d
  ∧ (2 * n = (2 * t + 1) * Zpos d ∨ 2 * n = (2 * t - 1) * Zpos d →
     Z.even t = true).
Proof.
  unfold round_half_even. cbv zeta. simpl Qnum. simpl Qden.
  pose proof (Z.div_mod n (Zpos d) ltac:(done)) as Hdm.
  pose proof (Z.mod_pos_bound n (Zpos d) ltac:(done)) as Hr.
  set (fl := n / Zpos d) in *. set (r := n mod Zpos d) in *. clearbody fl r.
  destruct (2 * r ?= Zpos d) eqn:Hcmp; cbv iota.
  - apply Z.compare_eq in Hcmp.
    destruct (Z.even fl) eqn:Hev.
    + split; [nia|done].
    + split; [nia|]. intros _. by rewrite Z.even_add, Hev.
  - change (2 * r < Zpos d) in Hcmp. split; [nia|]. intros [H|H]; nia.
  - apply Z.compare_gt_iff in Hcmp. split; [nia|]. intros [H|H]; nia.
Qed.

(** X14. A nutrient that the provider gives as a finite float is recorded
    as [round(quantity, 1)]: the number of tenths that is kept is the whole
    number nearest to ten times the quantity, and a quantity half way
    between two tenths goes to the even one.  (The float recorded is the
    one nearest to that many tenths; it is written here as the decimal.) *)
Theorem recorded_nutrient_is_nearest_tenth (n entry : gmap string json) key q :
  n !! key = Some (JObj entry) →
  entry !! "quantity" = Some (JFloat (FFin q)) →
  ∃ t,
    get_nutrient (JObj n) key = Ret (NFloat (FFin (t # 10)))
    ∧ (inject_Z t - (1 # 2) <= q * (10 # 1) <= inject_Z t + (1 # 2))%Q
    ∧ ((q * (10 # 1) == inject_Z t + (1 # 2))%Q
       ∨ (q * (10 # 1) == inject_Z t - (1 # 2))%Q →
       Z.even t = true).
Proof.
  intros Hn He. exists (tenths q).
  split; [by apply (get_nutrient_float _ entry)|].
  destruct q as [a b]. unfold tenths.
  change ((a # b) * (10 # 1))%Q with ((a * 10) # (b * 1)).
  destruct (round_half_even_bounds (a * 10) (b * 1)) as [Hb Heven].
  set (t := round_half_even (a * 10 # b * 1)) in *. clearbody t.
  unfold Qle, Qeq, Qplus, Qminus, Qopp, inject_Z in *. simpl in *.
  rewrite Pos.mul_1_r in *.
  split; [lia|]. intros [H|H]; apply Heven; lia.
Qed.

Lemma recorded_nutrient_is_nearest_tenth_witness :
  ∃ t,
    get_nutrient pizza_nutrients "PROCNT" = Ret (NFloat (FFin (t # 10)))
    ∧ (inject_Z t - (1 # 2) <= (1138 # 100) * (10 # 1) <= inject_Z t + (1 # 2))%Q
    ∧ (((1138 # 100) * (10 # 1) == inject_Z t + (1 # 2))%Q
       ∨ ((1138 # 100) * (10 # 1) == inject_Z t - (1 # 2))%Q →
       Z.even t = true).
Proof.
  assert (Hn : (<["ENERC_KCAL" := quantity (JFloat (FFin (26641 # 100)))]>
                  (<["PROCNT" := quantity (JFloat (FFin (1138 # 100)))]>
                     {[ "FAT" := quantity (JInt 10) ]}) : gmap string json)
               !! "PROCNT"
               = Some (JObj {[ "quantity" := JFloat (FFin (1138 # 100)) ]}))
    by (vm_compute; reflexivity).
  exact (recorded_nutrient_is_nearest_tenth _ _ "PROCNT" (1138 # 100) Hn eq_refl).
Defined.

(** ** Labels *)

Lemma lower_upper_ascii c : lower_ascii (upper_ascii c) = lower_ascii c.
Proof. by destruct c as [[] [] [] [] [] [] [] []]. Qed.

Lemma lower_lower_ascii c : lower_ascii (lower_ascii c) = lower_ascii c.
Proof. by destruct c as [[] [] [] [] [] [] [] []]. Qed.

Lemma upper_upper_ascii c : upper_ascii (upper_ascii c) = upper_ascii c.
Proof. by destruct c as [[] [] [] [] [] [] [] []]. Qed.

Lemma is_cased_lower_ascii c : is_cased (lower_ascii c) = is_cased c.
Proof. by destruct c as [[] [] [] [] [] [] [] []]. Qed.

Lemma is_cased_upper_ascii c : is_cased (upper_ascii c) = is_cased c.
Proof. by destruct c as [[] [] [] [] [] [] [] []]. Qed.

Lemma underscore_lower_ascii c :
  Ascii.eqb (lower_ascii c) underscore = Ascii.eqb c underscore.
Proof. by destruct c as [[] [] [] [] [] [] [] []]. Qed.

Lemma underscore_upper_ascii c :
  Ascii.eqb (upper_ascii c) underscore = Ascii.eqb c underscore.
Proof. by destruct c as [[] [] [] [] [] [] [] []]. Qed.

Lemma lower_title_from b s : lower (title_from b s) = lower s.
Proof.
  revert b. induction s as [|c s IH]; intros b; [done|]. simpl. rewrite IH.
  destruct b; by rewrite ?lower_upper_ascii, ?lower_lower_ascii.
Qed.

Lemma title_from_idempotent b s : title_from b (title_from b s) = title_from b s.
Proof.
  revert b. induction s as [|c s IH]; intros b; [done|]. simpl.
  destruct b.
  - by rewrite lower_lower_ascii, is_cased_lower_ascii, IH.
  - by rewrite upper_upper_ascii, is_cased_upper_ascii, IH.
Qed.

Lemma has_underscore_title_from b s :
  has_underscore (title_from b s) = has_underscore s.
Proof.
  revert b. induction s as [|c s IH]; intros b; [done|]. simpl. rewrite IH.
  destruct b; by rewrite ?underscore_lower_ascii, ?underscore_upper_ascii.
Qed.

Lemma has_underscore_replace s : has_underscore (replace_underscores s) = false.
Proof.
  induction s as [|c s IH]; [done|]. simpl. rewrite IH.
  destruct (Ascii.eqb c underscore) eqn:Hc; [done|]. by rewrite Hc.
Qed.

(** X15. The labels [predict_image] hands out, for class names in ASCII.
    The predictions keep the order and the probabilities of the top three;
    each label is the class name with spaces for underscores, in title
    case: it has no underscore left, title-casing it again changes nothing,
    and the ingredient line later sent to the provider for it is ["100g "]
    and the class name in lower case, spaces for underscores. *)
Theorem labels_are_normalised cfg class_names top3 predictions :
  Forall (fun name => ascii_only name = true) class_names →
  collect_predictions class_names top3 = Ret predictions →
  Forall2 (fun p (x : pyfloat * nat) =>
             confidence p = x.1
             ∧ ∃ name, class_names !! x.2 = Some name
                 ∧ ascii_only name = true
                 ∧ label p = title (replace_underscores name)
                 ∧ has_underscore (label p) = false
                 ∧ title (label p) = label p
                 ∧ payload (api_request cfg (label p))
                   = JObj {[ "ingr" :=
                               JArr [JStr ("100g " +:+ lower (replace_underscores name))] ]})
          predictions top3.
Proof.
  intros Hascii. revert predictions.
  induction top3 as [|[prob catid] top3 IH]; intros ps Hrun.
  - injection Hrun as <-. constructor.
  - simpl in Hrun. cbv [mbind res_bind] in Hrun. unfold class_label in Hrun.
    destruct (class_names !! catid) as [name|] eqn:Hname; [|done].
    destruct (collect_predictions class_names top3) as [ps'|]; [|done].
    injection Hrun as <-. constructor; [|by apply IH].
    simpl. split; [done|]. exists name. split; [done|].
    split; [by apply (Forall_lookup_1 _ _ _ _ Hascii Hname)|]. split; [done|].
    unfold title. split; [|split].
    + by rewrite has_underscore_title_from, has_underscore_replace.
    + apply title_from_idempotent.
    + unfold api_request. simpl. by rewrite lower_title_from.
Qed.

Lemma labels_are_normalised_witness :
  collect_predictions ["apple_pie"; "baby_back_ribs"; "pizza"]
    [(FFin (9 # 10), 2%nat); (FFin (6 # 100), 0%nat); (FFin (4 # 100), 1%nat)]
  = Ret [ {| label := "Pizza"; confidence := FFin (9 # 10) |};
          {| label := "Apple Pie"; confidence := FFin (6 # 100) |};
          {| label := "Baby Back Ribs"; confidence := FFin (4 # 100) |} ]
  ∧ payload (api_request credentials "Baby Back Ribs")
    = JObj {[ "ingr" := JArr [JStr "100g baby back ribs"] ]}.
Proof.
  assert (Hascii : Forall (fun name => ascii_only name = true)
                     ["apple_pie"; "baby_back_ribs"; "pizza"])
    by (repeat constructor).
  pose proof (labels_are_normalised credentials
                ["apple_pie"; "baby_back_ribs"; "pizza"]
                [(FFin (9 # 10), 2%nat); (FFin (6 # 100), 0%nat);
                 (FFin (4 # 100), 1%nat)] _ Hascii eq_refl) as H.
  split; [reflexivity|].
  apply Forall2_cons_1 in H as [_ H]. apply Forall2_cons_1 in H as [_ H].
  apply Forall2_cons_1 in H as [(_ & name & Hname & _ & _ & _ & _ & Hpay) _].
  injection Hname as <-. exact Hpay.
Defined.

(** ** Two handlers at once: the lock and progress *)

Lemma remaining_le_8 t : (remaining t ≤ 8)%nat.
Proof. destruct t; simpl; lia. Qed.

Lemma on_path_done ps l r t :
  on_path ps l r t → remaining t = 0%nat → t = TDone (respond_or_500 ps r).
Proof.
  unfold on_path. intros H Hz.
  destruct H as [->|[->|[->|[->|[->|[->|[->|[->| ->]]]]]]]]; done.
Qed.

(** A handler on the path that is not held up by the other one moves, and
    has one step less to go. *)
Lemma thread_step_progress cfg m oa ob top rest ra lb rb ta tb s :
  label top ≠ lb →
  m !! label top = None →
  fetch_result cfg oa (label top) = Ret ra →
  truthy ra = true →
  on_path (top :: rest) (label top) ra ta →
  consistent m oa ob (label top) ra lb rb ta tb s →
  holding (stage_of tb) = false →
  remaining ta ≠ 0%nat →
  ∃ ta' s', thread_step cfg oa ta s = Some (ta', s')
            ∧ S (remaining ta') = remaining ta.
Proof.
  intros Hne Hmiss Hfetch Htruthy Hpath [Hheld Hexcl Hcache Hfile] Hfree Hleft.
  unfold on_path in Hpath.
  destruct Hpath as [->|[->|[->|[->|[->|[->|[->|[->| ->]]]]]]]]; simpl.
  - by eauto.
  - rewrite Hcache. simpl. rewrite lookup_ins_ne, Hmiss by done.
    rewrite bool_decide_false by (by intros [? ?]). by eauto.
  - rewrite get_nutrition_data_from_api_run, Hfetch, Htruthy. by eauto.
  - simpl in Hheld. rewrite Hfree in Hheld. rewrite Hheld. by eauto.
  - rewrite Hcache. simpl. by eauto.
  - by eauto.
  - by eauto.
  - by eauto.
  - done.
Qed.

Lemma run_app cfg o1 o2 schedule1 schedule2 st :
  run cfg o1 o2 (schedule1 ++ schedule2) st
  = run cfg o1 o2 schedule2 (run cfg o1 o2 schedule1 st).
Proof. apply foldl_app. Qed.

Lemma run_cons cfg o1 o2 pick schedule st :
  run cfg o1 o2 (pick :: schedule) st
  = run cfg o1 o2 schedule (step cfg o1 o2 pick st).
Proof. done. Qed.

Lemma step_first_keeps_second cfg o1 o2 st :
  thread2 (step cfg o1 o2 true st) = thread2 st.
Proof.
  unfold step. by destruct (thread_step cfg o1 (thread1 st) (sys st)) as [[t s]|].
Qed.

Lemma step_second_keeps_first cfg o1 o2 st :
  thread1 (step cfg o1 o2 false st) = thread1 st.
Proof.
  unfold step. by destruct (thread_step cfg o2 (thread2 st) (sys st)) as [[t s]|].
Qed.

Lemma run_first_keeps_second cfg o1 o2 n st :
  thread2 (run cfg o1 o2 (replicate n true) st) = thread2 st.
Proof.
  revert st. induction n as [|n IH]; intros st; [done|].
  cbn [replicate]. by rewrite run_cons, IH, step_first_keeps_second.
Qed.

Lemma run_second_keeps_first cfg o1 o2 n st :
  thread1 (run cfg o1 o2 (replicate n false) st) = thread1 st.
Proof.
  revert st. induction n as [|n IH]; intros st; [done|].
  cbn [replicate]. by rewrite run_cons, IH, step_second_keeps_first.
Qed.

Section TwoMissesFinish.
Variables (cfg : config) (o1 o2 : oracle) (m : gmap string json).
Variables (top1 top2 : prediction) (rest1 rest2 : list prediction).
Variables (r1 r2 : json).
Hypothesis different : label top1 ≠ label top2.
Hypothesis miss1 : m !! label top1 = None.
Hypothesis miss2 : m !! label top2 = None.
Hypothesis fetch1 : fetch_result cfg o1 (label top1) = Ret r1.
Hypothesis fetch2 : fetch_result cfg o2 (label top2) = Ret r2.
Hypothesis found1 : r1 ≠ JNull.
Hypothesis found2 : r2 ≠ JNull.

Let good : state → Prop :=
  both_on_path m o1 o2 (top1 :: rest1) (label top1) r1
    (top2 :: rest2) (label top2) r2.

Lemma good_step pick st : good st → good (step cfg o1 o2 pick st).
Proof. by apply step_inv. Qed.

Lemma good_run schedule st : good st → good (run cfg o1 o2 schedule st).
Proof. by apply run_inv. Qed.

Lemma first_finishes n st :
  good st →
  holding (stage_of (thread2 st)) = false →
  (remaining (thread1 st) ≤ n)%nat →
  remaining (thread1 (run cfg o1 o2 (replicate n true) st)) = 0%nat.
Proof.
  revert st. induction n as [|n IH]; intros st Hgood Hfree Hn; [simpl in *; lia|].
  cbn [replicate]. rewrite run_cons. apply IH.
  - by apply good_step.
  - by rewrite step_first_keeps_second.
  - destruct Hgood as (Hp1 & Hp2 & Hc).
    destruct (decide (remaining (thread1 st) = 0%nat)) as [Hz|Hnz].
    + unfold step. rewrite (on_path_done _ _ _ _ Hp1 Hz). simpl. lia.
    + destruct (thread_step_progress _ _ _ _ _ _ _ _ _ _ _ _
                  different miss1 fetch1 (fetched_truthy _ _ _ _ fetch1 found1)
                  Hp1 Hc Hfree Hnz) as (t & s & Hstep & Hless).
      unfold step. rewrite Hstep. simpl. lia.
Qed.

Lemma second_finishes n st :
  good st →
  holding (stage_of (thread1 st)) = false →
  (remaining (thread2 st) ≤ n)%nat →
  remaining (thread2 (run cfg o1 o2 (replicate n false) st)) = 0%nat.
Proof.
  revert st. induction n as [|n IH]; intros st Hgood Hfree Hn; [simpl in *; lia|].
  cbn [replicate]. rewrite run_cons. apply IH.
  - by apply good_step.
  - by rewrite step_second_keeps_first.
  - destruct Hgood as (Hp1 & Hp2 & Hc).
    apply (consistent_swap _ _ _ _ _ _ _ _ _ _ different) in Hc.
    destruct (decide (remaining (thread2 st) = 0%nat)) as [Hz|Hnz].
    + unfold step. rewrite (on_path_done _ _ _ _ Hp2 Hz). simpl. lia.
    + destruct (thread_step_progress _ _ _ _ _ _ _ _ _ _ _ _
                  (not_eq_sym different) miss2 fetch2
                  (fetched_truthy _ _ _ _ fetch2 found2)
                  Hp2 Hc Hfree Hnz) as (t & s & Hstep & Hless).
      unfold step. rewrite Hstep. simpl. lia.
Qed.

Lemma done_not_holding t : remaining t = 0%nat → holding (stage_of t) = false.
Proof. by destruct t. Qed.

Lemma drain_finishes st :
  good st →
  let st' := run cfg o1 o2 drain st in
  good st' ∧ remaining (thread1 st') = 0%nat ∧ remaining (thread2 st') = 0%nat.
Proof.
  intros Hgood st'. subst st'. unfold drain. rewrite !run_app.
  set (sta := run cfg o1 o2 (replicate 8 false) st).
  set (stb := run cfg o1 o2 (replicate 8 true) sta).
  assert (Ha : good sta) by (by apply good_run).
  assert (Hb : good stb) by (by apply good_run).
  assert (Hfree2 : holding (stage_of (thread2 sta)) = false).
  { destruct (holding (stage_of (thread1 st))) eqn:Hh1.
    - destruct Ha as (_ & _ & [_ Hexcl _ _]).
      unfold sta in Hexcl |- *.
      rewrite run_second_keeps_first, Hh1, andb_true_l in Hexcl.
      exact Hexcl.
    - apply done_not_holding. apply second_finishes; [done..|].
      apply remaining_le_8. }
  assert (Hdone1 : remaining (thread1 stb) = 0%nat).
  { apply first_finishes; [done..|]. apply remaining_le_8. }
  split; [by apply good_run|]. split.
  - by rewrite run_second_keeps_first.
  - apply second_finishes; [done| |apply remaining_le_8].
    by apply done_not_holding.
Qed.
End TwoMissesFinish.

(** X16. The lock does its work: with two handlers on the write path for
    different labels, at no point of any interleaving are both inside the
    [with db_lock] block, and the lock is held exactly while one of them
    is. *)
Theorem handlers_never_share_the_lock
    cfg o1 o2 w (m : gmap string json) top1 rest1 top2 rest2 r1 r2 schedule :
  nutrition_db w = JObj m →
  label top1 ≠ label top2 →
  m !! label top1 = None →
  m !! label top2 = None →
  fetch_result cfg o1 (label top1) = Ret r1 →
  fetch_result cfg o2 (label top2) = Ret r2 →
  r1 ≠ JNull →
  r2 ≠ JNull →
  let st := run cfg o1 o2 schedule
              (concurrent (upload (top1 :: rest1)) (upload (top2 :: rest2)) w) in
  holding (stage_of (thread1 st)) && holding (stage_of (thread2 st)) = false
  ∧ db_lock (sys st)
    = holding (stage_of (thread1 st)) || holding (stage_of (thread2 st)).
Proof.
  intros Hdb Hne Hm1 Hm2 Hf1 Hf2 Hr1 Hr2 st.
  assert (Hinv : both_on_path m o1 o2 (top1 :: rest1) (label top1) r1
                   (top2 :: rest2) (label top2) r2 st).
  { apply run_inv; try done. by apply start_inv. }
  destruct Hinv as (_ & _ & [Hheld Hexcl _ _]). by split.
Qed.

(** X17. No deadlock and no starvation under a fair hand-over: however the
    two handlers have been interleaved so far, letting the second run, then
    the first, then the second again (eight steps each) brings both to
    their answers, each built from its own record. *)
Theorem concurrent_misses_both_complete
    cfg o1 o2 w (m : gmap string json) top1 rest1 top2 rest2 r1 r2 schedule :
  nutrition_db w = JObj m →
  label top1 ≠ label top2 →
  m !! label top1 = None →
  m !! label top2 = None →
  fetch_result cfg o1 (label top1) = Ret r1 →
  fetch_result cfg o2 (label top2) = Ret r2 →
  r1 ≠ JNull →
  r2 ≠ JNull →
  let st := run cfg o1 o2 (schedule ++ drain)
              (concurrent (upload (top1 :: rest1)) (upload (top2 :: rest2)) w) in
  thread1 st = TDone (respond_or_500 (top1 :: rest1) r1)
  ∧ thread2 st = TDone (respond_or_500 (top2 :: rest2) r2).
Proof.
  intros Hdb Hne Hm1 Hm2 Hf1 Hf2 Hr1 Hr2 st. subst st. rewrite run_app.
  destruct (drain_finishes cfg o1 o2 m top1 top2 rest1 rest2 r1 r2
              Hne Hm1 Hm2 Hf1 Hf2 Hr1 Hr2
              (run cfg o1 o2 schedule
                 (concurrent (upload (top1 :: rest1)) (upload (top2 :: rest2)) w)))
    as ((Hp1 & Hp2 & _) & Hz1 & Hz2).
  { apply run_inv; try done. by apply start_inv. }
  split; by eapply on_path_done.
Qed.

Lemma concurrent_misses_both_complete_witness :
  let st := run credentials (replies (edamam_reply pizza_nutrients))
              (replies (edamam_reply pasta_nutrients))
              ([true; true; true; true; true; false; false; false; false] ++ drain)
              (concurrent (upload [pizza; pasta; salad])
                 (upload [pasta; salad; pizza]) fresh) in
  thread1 st = TDone (respond_or_500 [pizza; pasta; salad] pizza_record)
  ∧ thread2 st = TDone (respond_or_500 [pasta; salad; pizza] pasta_record).
Proof.
  assert (Hne : label pizza ≠ label pasta) by discriminate.
  assert (Hr1 : pizza_record ≠ JNull) by (vm_compute; discriminate).
  assert (Hr2 : pasta_record ≠ JNull) by (vm_compute; discriminate).
  assert (Hf1 : fetch_result credentials (replies (edamam_reply pizza_nutrients))
                  (label pizza) = Ret pizza_record) by (vm_compute; reflexivity).
  assert (Hf2 : fetch_result credentials (replies (edamam_reply pasta_nutrients))
                  (label pasta) = Ret pasta_record) by (vm_compute; reflexivity).
  exact (concurrent_misses_both_complete credentials
           (replies (edamam_reply pizza_nutrients))
           (replies (edamam_reply pasta_nutrients)) fresh ∅
           pizza [pasta; salad] pasta [salad; pizza] pizza_record pasta_record
           [true; true; true; true; true; false; false; false; false]
           eq_refl Hne eq_refl eq_refl Hf1 Hf2 Hr1 Hr2).
Defined.

Lemma handlers_never_share_the_lock_witness :
  let st := run credentials (replies (edamam_reply pizza_nutrients))
              (replies (edamam_reply pasta_nutrients))
              [true; true; true; true; true; false; false; false; false]
              (concurrent (upload [pizza; pasta; salad])
                 (upload [pasta; salad; pizza]) fresh) in
  holding (stage_of (thread1 st)) && holding (stage_of (thread2 st)) = false
  ∧ db_lock (sys st)
    = holding (stage_of (thread1 st)) || holding (stage_of (thread2 st)).
Proof.
  assert (Hne : label pizza ≠ label pasta) by discriminate.
  assert (Hr1 : pizza_record ≠ JNull) by (vm_compute; discriminate).
  assert (Hr2 : pasta_record ≠ JNull) by (vm_compute; discriminate).
  assert (Hf1 : fetch_result credentials (replies (edamam_reply pizza_nutrients))
                  (label pizza) = Ret pizza_record) by (vm_compute; reflexivity).
  assert (Hf2 : fetch_result credentials (replies (edamam_reply pasta_nutrients))
                  (label pasta) = Ret pasta_record) by (vm_compute; reflexivity).
  exact (handlers_never_share_the_lock credentials
           (replies (edamam_reply pizza_nutrients))
           (replies (edamam_reply pasta_nutrients)) fresh ∅
           pizza [pasta; salad] pasta [salad; pizza] pizza_record pasta_record
           [true; true; true; true; true; false; false; false; false]
           eq_refl Hne eq_refl eq_refl Hf1 Hf2 Hr1 Hr2).
Defined.

(** The first handler is inside the block at that point, the second waits. *)
Example first_holds_second_waits :
  let st := run credentials (replies (edamam_reply pizza_nutrients))
              (replies (edamam_reply pasta_nutrients))
              [true; true; true; true; true; false; false; false; false; false]
              (concurrent (upload [pizza; pasta; salad])
                 (upload [pasta; salad; pizza]) fresh) in
  stage_of (thread1 st) = 2%nat
  ∧ thread2 st = TAcquire [pasta; salad; pizza] "Pasta" pasta_record
  ∧ db_lock (sys st) = true.
Proof. vm_compute. done. Qed.

(** C9. Two requests run at once, their top labels different and both
    missing from the cache, both fetches returning a record.  At every
    point of every interleaving at most one handler is inside
    [with db_lock], and the lock is held exactly while one is: the
    assignment and the file write of one handler are never interleaved
    with those of the other.  Once both have answered, the cache holds both
    records (over what it held before), each request has been answered from
    its own record, the lock is free, and, the two file writes having
    succeeded, the file holds the whole cache, so both records.  And both
    do answer: from wherever the interleaving has taken them, letting each
    run in turn ends in that state. *)
Theorem concurrent_misses_both_persist
    cfg o1 o2 w (m : gmap string json) top1 rest1 top2 rest2 r1 r2 schedule :
  nutrition_db w = JObj m →
  label top1 ≠ label top2 →
  m !! label top1 = None →
  m !! label top2 = None →
  fst (get_nutrition_data_from_api cfg o1 (label top1) w) = Ret r1 →
  fst (get_nutrition_data_from_api cfg o2 (label top2) w) = Ret r2 →
  r1 ≠ JNull →
  r2 ≠ JNull →
  let start := concurrent (upload (top1 :: rest1)) (upload (top2 :: rest2)) w in
  let st := run cfg o1 o2 schedule start in
  let final := run cfg o1 o2 (schedule ++ drain) start in
  (holding (stage_of (thread1 st)) && holding (stage_of (thread2 st)) = false
   ∧ db_lock (sys st)
     = holding (stage_of (thread1 st)) || holding (stage_of (thread2 st)))
  ∧ (is_Some (answered (thread1 st)) →
     is_Some (answered (thread2 st)) →
     answered (thread1 st) = Some (respond_or_500 (top1 :: rest1) r1)
     ∧ answered (thread2 st) = Some (respond_or_500 (top2 :: rest2) r2)
     ∧ nutrition_db (shared (sys st))
       = JObj (<[label top1 := r1]> (<[label top2 := r2]> m))
     ∧ db_lock (sys st) = false
     ∧ (disk o1 = WriteOk → disk o2 = WriteOk →
        db_file (shared (sys st)) = Snapshot (nutrition_db (shared (sys st)))))
  ∧ (answered (thread1 final) = Some (respond_or_500 (top1 :: rest1) r1)
     ∧ answered (thread2 final) = Some (respond_or_500 (top2 :: rest2) r2)
     ∧ nutrition_db (shared (sys final))
       = JObj (<[label top1 := r1]> (<[label top2 := r2]> m))
     ∧ db_lock (sys final) = false
     ∧ (disk o1 = WriteOk → disk o2 = WriteOk →
        db_file (shared (sys final))
        = Snapshot (JObj (<[label top1 := r1]> (<[label top2 := r2]> m))))).
Proof.
  intros Hdb Hne Hm1 Hm2 Hf1 Hf2 Hr1 Hr2 start st final.
  rewrite get_nutrition_data_from_api_run in Hf1, Hf2. simpl in Hf1, Hf2.
  assert (Hinv : both_on_path m o1 o2 (top1 :: rest1) (label top1) r1
                   (top2 :: rest2) (label top2) r2 st).
  { apply run_inv; try done. by apply start_inv. }
  split; [|split].
  - destruct Hinv as (_ & _ & [Hheld Hexcl _ _]). by split.
  - by apply inv_answered.
  - destruct (drain_finishes cfg o1 o2 m top1 top2 rest1 rest2 r1 r2
                Hne Hm1 Hm2 Hf1 Hf2 Hr1 Hr2 st Hinv) as (Hgood & Hz1 & Hz2).
    assert (Hfinal : final = run cfg o1 o2 drain st)
      by (unfold final, st; apply run_app).
    rewrite <- Hfinal in Hgood, Hz1, Hz2.
    pose proof Hgood as (Hp1 & Hp2 & _).
    pose proof (on_path_done _ _ _ _ Hp1 Hz1) as Ht1.
    pose proof (on_path_done _ _ _ _ Hp2 Hz2) as Ht2.
    destruct (inv_answered o1 o2 m top1 top2 rest1 rest2 r1 r2 final Hgood)
      as (Ha1 & Ha2 & Hcache & Hlock & Hfile).
    { rewrite Ht1. by eexists. }
    { rewrite Ht2. by eexists. }
    split; [done|]. split; [done|]. split; [done|]. split; [done|].
    intros Hd1 Hd2. rewrite <- Hcache. by apply Hfile.
Qed.

Lemma concurrent_misses_both_persist_witness :
  let start := concurrent (upload [pizza; pasta; salad])
                 (upload [pasta; salad; pizza]) fresh in
  let final := run credentials (replies (edamam_reply pizza_nutrients))
                 (replies (edamam_reply pasta_nutrients))
                 ([true; true; true; true; true; false; false; false; false] ++ drain)
                 start in
  answered (thread1 final)
  = Some (respond_or_500 [pizza; pasta; salad] pizza_record)
  ∧ answered (thread2 final)
    = Some (respond_or_500 [pasta; salad; pizza] pasta_record)
  ∧ nutrition_db (shared (sys final))
    = JObj (<["Pizza" := pizza_record]> (<["Pasta" := pasta_record]> ∅))
  ∧ db_lock (sys final) = false
  ∧ db_file (shared (sys final))
    = Snapshot (JObj (<["Pizza" := pizza_record]> (<["Pasta" := pasta_record]> ∅))).
Proof.
  intros start final.
  assert (Hne : label pizza ≠ label pasta) by discriminate.
  assert (Hr1 : pizza_record ≠ JNull) by (vm_compute; discriminate).
  assert (Hr2 : pasta_record ≠ JNull) by (vm_compute; discriminate).
  assert (Hf1 : fst (get_nutrition_data_from_api credentials
                       (replies (edamam_reply pizza_nutrients)) (label pizza) fresh)
                = Ret pizza_record) by (vm_compute; reflexivity).
  assert (Hf2 : fst (get_nutrition_data_from_api credentials
                       (replies (edamam_reply pasta_nutrients)) (label pasta) fresh)
                = Ret pasta_record) by (vm_compute; reflexivity).
  destruct (concurrent_misses_both_persist credentials
              (replies (edamam_reply pizza_nutrients))
              (replies (edamam_reply pasta_nutrients)) fresh ∅
              pizza [pasta; salad] pasta [salad; pizza]
              pizza_record pasta_record
              [true; true; true; true; true; false; false; false; false]
              eq_refl Hne eq_refl eq_refl Hf1 Hf2 Hr1 Hr2)
    as (_ & _ & Ha1 & Ha2 & Hdb & Hlock & Hfile).
  exact (conj Ha1 (conj Ha2 (conj Hdb (conj Hlock (Hfile eq_refl eq_refl))))).
Defined.
